(** * ai-sql-copilot: the chart transform of [frontend/app/page.tsx]

    A shallow embedding of the visualisation transform of the front end
    ([pickXKey], [ChartOrTable], its [TopList], [FullscreenChart] and its
    [TopList]) together with the JavaScript primitives those functions call,
    followed by the properties of the transform.

    Conventions of the embedding.
    - A JavaScript Number is an IEEE 754 binary64 value, taken from the
      Standard Library's [SpecFloat] (no payload for NaN).
    - A JavaScript string is a [string]; only ASCII text is interpreted
      (case mapping and white space), other bytes are carried unchanged.
    - A plain object (a result row, a chart point) is an association list in
      property-creation order; property reads see own properties only, so
      column names that collide with members of [Object.prototype] are
      outside the model. Where a property name comes from the data (the
      group values of the pivot), the statements name the restriction
      ([own_name], [own_names]).
    - What ECMAScript leaves to the engine ([localeCompare], date strings
      outside the ISO date format) is a field of the [Engine] record and every
      general statement quantifies over it. *)

From Stdlib Require Import ZArith List String Ascii Bool Lia Permutation.
From Stdlib Require Import Floats.SpecFloat.
Import ListNotations.

Open Scope string_scope.
Open Scope Z_scope.

(* ================================================================== *)
(** * JavaScript numbers *)
(* ================================================================== *)

Module JSNumber.

Definition prec : Z := 53.
Definition emax : Z := 1024.

Definition number : Type := spec_float.

Definition NaN : number := S754_nan.
Definition Infinity : number := S754_infinity false.
Definition pos_zero : number := S754_zero false.

(** The Number nearest to an integer. *)
Definition of_Z (z : Z) : number := binary_normalize prec emax z 0 false.

Definition add : number -> number -> number := SFadd prec emax.
Definition sub : number -> number -> number := SFsub prec emax.

Definition is_nan (v : number) : bool :=
  match v with S754_nan => true | _ => false end.

Definition is_finite (v : number) : bool :=
  match v with
  | S754_zero _ | S754_finite _ _ _ => true
  | S754_infinity _ | S754_nan => false
  end.

(** [v < 0] as the relational operator computes it (false when [v] is
    NaN). *)
Definition ltb0 (v : number) : bool := SFltb v pos_zero.

(** ToBoolean of a Number: false for [+0], [-0] and NaN. *)
Definition truthy (v : number) : bool :=
  match v with
  | S754_zero _ | S754_nan => false
  | _ => true
  end.

(** The Number nearest to the rational [p/q] (ties to even), for [0 <= p]
    and [0 < q]: the quotient is taken with more than [prec + 2] bits and a
    sticky last bit, then rounded once. *)
Definition of_ratio (neg : bool) (p q : Z) : number :=
  if p =? 0 then S754_zero neg
  else
    let e := Z.log2 p - Z.log2 q - 64 in
    let '(m, r) := if e <? 0 then Z.div_eucl (p * 2 ^ (- e)) q
                   else Z.div_eucl p (q * 2 ^ e) in
    let m' := if r =? 0 then m else Z.lor m 1 in
    binary_normalize prec emax (if neg then - m' else m') e neg.

(** The Number nearest to [m * 10^e], for [0 <= m]. *)
Definition of_decimal (neg : bool) (m e : Z) : number :=
  if 0 <=? e then of_ratio neg (m * 10 ^ e) 1
  else of_ratio neg m (10 ^ (- e)).

(** The exact value of a positive finite Number as a fraction. *)
Definition to_ratio (m : positive) (e : Z) : Z * Z :=
  if 0 <=? e then (Zpos m * 2 ^ e, 1) else (Zpos m, 2 ^ (- e)).

(** ** StringToNumber *)

Definition is_space (c : ascii) : bool :=
  let n := nat_of_ascii c in
  (Nat.eqb n 32 || (Nat.leb 9 n && Nat.leb n 13))%bool.

Fixpoint trim_start (s : string) : string :=
  match s with
  | String c s' => if is_space c then trim_start s' else s
  | EmptyString => s
  end.

Fixpoint rev_string (s acc : string) : string :=
  match s with
  | String c s' => rev_string s' (String c acc)
  | EmptyString => acc
  end.

Definition trim (s : string) : string :=
  rev_string (trim_start (rev_string (trim_start s) "")) "".

(** The value of [c] as a digit of base [base], if it is one. *)
Definition digit_of (base : Z) (c : ascii) : option Z :=
  let n := Z.of_nat (nat_of_ascii c) in
  let d := if (48 <=? n) && (n <=? 57) then n - 48
           else if (97 <=? n) && (n <=? 102) then n - 87
           else if (65 <=? n) && (n <=? 70) then n - 55
           else base in
  if d <? base then Some d else None.

(** Reads the longest run of digits: the value accumulated on [acc], the
    number of digits read, the rest of the text. *)
Fixpoint read_digits (base : Z) (s : string) (acc : Z) (n : Z)
  : Z * Z * string :=
  match s with
  | String c s' =>
      match digit_of base c with
      | Some d => read_digits base s' (base * acc + d) (n + 1)
      | None => (acc, n, s)
      end
  | EmptyString => (acc, n, s)
  end.

(** ExponentPart, optional and last: [e] or [E], a sign, digits. *)
Definition parse_exponent (s : string) : option Z :=
  match s with
  | EmptyString => Some 0
  | String c s' =>
      if (Ascii.eqb c "e" || Ascii.eqb c "E")%bool then
        let '(neg, ds) :=
          match s' with
          | String "-" t => (true, t)
          | String "+" t => (false, t)
          | _ => (false, s')
          end in
        match read_digits 10 ds 0 0 with
        | (v, n, EmptyString) =>
            if 0 <? n then Some (if neg then - v else v) else None
        | _ => None
        end
      else None
  end.

(** StrUnsignedDecimalLiteral. *)
Definition parse_unsigned (neg : bool) (s : string) : number :=
  if String.eqb s "Infinity" then S754_infinity neg
  else
    let '(i, ni, r1) := read_digits 10 s 0 0 in
    match r1 with
    | String "." r2 =>
        let '(f, nf, r3) := read_digits 10 r2 i 0 in
        if (ni =? 0) && (nf =? 0) then NaN
        else match parse_exponent r3 with
             | Some e => of_decimal neg f (e - nf)
             | None => NaN
             end
    | _ =>
        if ni =? 0 then NaN
        else match parse_exponent r1 with
             | Some e => of_decimal neg i e
             | None => NaN
             end
    end.

(** NonDecimalIntegerLiteral: the digits after [0x], [0o] or [0b]. *)
Definition parse_radix (base : Z) (s : string) : number :=
  match read_digits base s 0 0 with
  | (v, n, EmptyString) => if 0 <? n then of_Z v else NaN
  | _ => NaN
  end.

Definition StringToNumber (s : string) : number :=
  match trim s with
  | EmptyString => pos_zero
  | String "-" t => parse_unsigned true t
  | String "+" t => parse_unsigned false t
  | String "0" (String c t) as u =>
      if (Ascii.eqb c "x" || Ascii.eqb c "X")%bool then parse_radix 16 t
      else if (Ascii.eqb c "o" || Ascii.eqb c "O")%bool then parse_radix 8 t
      else if (Ascii.eqb c "b" || Ascii.eqb c "B")%bool then parse_radix 2 t
      else parse_unsigned false u
  | u => parse_unsigned false u
  end.

(** ** Number::toString, radix 10 *)

Fixpoint digits_fuel (fuel : nat) (z : Z) (acc : string) : string :=
  match fuel with
  | O => acc
  | S f =>
      let acc' := String (ascii_of_nat (Z.to_nat (48 + z mod 10))) acc in
      if z <? 10 then acc' else digits_fuel f (z / 10) acc'
  end.

(** The decimal digits of a natural number. *)
Definition digits (z : Z) : string :=
  digits_fuel (S (Z.to_nat (Z.log2 z))) z "".

(** [p/q < 10^n]. *)
Definition below_pow10 (p q n : Z) : bool :=
  if 0 <=? n then p <? q * 10 ^ n else p * 10 ^ (- n) <? q.

Fixpoint find_position (fuel : nat) (p q n : Z) : Z :=
  match fuel with
  | O => n
  | S f => if below_pow10 p q n then n else find_position f p q (n + 1)
  end.

(** The [n] with [10^(n-1) <= p/q < 10^n], searched upwards from an
    under-estimate read off the binary logarithms. *)
Definition position (p q : Z) : Z :=
  find_position 8 p q ((Z.log2 p - Z.log2 q) * 30103 / 100000 - 2).

(** The shortest decimal [s * 10^(n-k)] that reads back as [v]: [k] grows
    from [17 - fuel + 1]; of the two [k]-digit neighbours of [p/q] the one
    that reads back is taken, the nearer one when both do, the even one on a
    tie. The result is [(n, s)]. *)
Fixpoint shortest (fuel : nat) (v : number) (p q n k : Z) : Z * Z :=
  let '(num, den) := if 0 <=? k - n then (p * 10 ^ (k - n), q)
                     else (p, q * 10 ^ (n - k)) in
  let s0 := num / den in
  let r := num mod den in
  let ok s := SFeqb (of_decimal false s (n - k)) v in
  let up := match 2 * r ?= den with
            | Lt => false
            | Gt => true
            | Eq => Z.odd s0
            end in
  let pick s := if s =? 10 ^ k then (n + 1, 1) else (n, s) in
  match fuel with
  | O => (n, s0)
  | S f =>
      if ok s0 && ok (s0 + 1) then pick (if up then s0 + 1 else s0)
      else if ok s0 then (n, s0)
      else if ok (s0 + 1) then pick (s0 + 1)
      else shortest f v p q n (k + 1)
  end.

Fixpoint zeros (n : nat) : string :=
  match n with O => "" | S n' => String "0" (zeros n') end.

Definition take (n : Z) (s : string) : string := substring 0 (Z.to_nat n) s.
Definition drop (n : Z) (s : string) : string :=
  substring (Z.to_nat n) (String.length s - Z.to_nat n) s.

Definition format_decimal (n s : Z) : string :=
  let ds := digits s in
  let k := Z.of_nat (String.length ds) in
  if (k <=? n) && (n <=? 21) then ds ++ zeros (Z.to_nat (n - k))
  else if (0 <? n) && (n <=? 21) then take n ds ++ "." ++ drop n ds
  else if (-6 <? n) && (n <=? 0) then "0." ++ zeros (Z.to_nat (- n)) ++ ds
  else
    let e := n - 1 in
    let ex := (if e <? 0 then "-" else "+") ++ digits (Z.abs e) in
    if k =? 1 then ds ++ "e" ++ ex
    else take 1 ds ++ "." ++ drop 1 ds ++ "e" ++ ex.

Definition to_string (v : number) : string :=
  match v with
  | S754_nan => "NaN"
  | S754_zero _ => "0"
  | S754_infinity false => "Infinity"
  | S754_infinity true => "-Infinity"
  | S754_finite neg m e =>
      let '(p, q) := to_ratio m e in
      let '(n, s) := shortest 17 (S754_finite false m e) p q (position p q) 1 in
      (if neg then "-" else "") ++ format_decimal n s
  end.

(** ** Time values *)

(** TimeClip: NaN beyond 8.64e15 ms, otherwise the integral part. *)
Definition TimeClip (t : number) : number :=
  match t with
  | S754_zero _ => pos_zero
  | S754_finite neg m e =>
      let z := if 0 <=? e then Zpos m * 2 ^ e else Zpos m / 2 ^ (- e) in
      if 8640000000000000 <? z then NaN
      else of_Z (if neg then - z else z)
  | _ => NaN
  end.

End JSNumber.

Definition number : Type := JSNumber.number.

(* ================================================================== *)
(** * JavaScript strings *)
(* ================================================================== *)

Module JSString.

Definition lower_ascii (c : ascii) : ascii :=
  let n := nat_of_ascii c in
  if (Nat.leb 65 n && Nat.leb n 90)%bool then ascii_of_nat (n + 32) else c.

(** [s.toLowerCase()]. *)
Fixpoint toLowerCase (s : string) : string :=
  match s with
  | String c s' => String (lower_ascii c) (toLowerCase s')
  | EmptyString => EmptyString
  end.

(** [s.includes(sub)]. *)
Fixpoint includes (s sub : string) : bool :=
  (prefix sub s ||
   match s with
   | String _ s' => includes s' sub
   | EmptyString => false
   end)%bool.

(** [s.replace(/_/g, '')]. *)
Fixpoint strip_underscores (s : string) : string :=
  match s with
  | String c s' =>
      if Ascii.eqb c "_" then strip_underscores s'
      else String c (strip_underscores s')
  | EmptyString => EmptyString
  end.

(** [parts.join(sep)]. *)
Definition join (sep : string) (parts : list string) : string :=
  String.concat sep parts.

(** ToBoolean of a string. *)
Definition truthy (s : string) : bool := negb (String.eqb s "").

End JSString.

(* ================================================================== *)
(** * The engine-defined parts of the built-ins *)
(* ================================================================== *)

(** [localeCompare] follows the collation of the host locale, and [Date.parse]
    may accept any text outside the ISO format by heuristics of its own. *)
Record Engine : Type := {
  localeCompare : string -> string -> comparison;
  parse_other_date : string -> number
}.

(* ================================================================== *)
(** * Dates *)
(* ================================================================== *)

Module JSDate.
Import JSNumber.

(** Days from 1970-01-01 to the given day of the proleptic Gregorian
    calendar ([m] in 1..12). *)
Definition days_from_civil (y m d : Z) : Z :=
  let y' := if m <=? 2 then y - 1 else y in
  let era := y' / 400 in
  let yoe := y' - era * 400 in
  let doy := (153 * (if 2 <? m then m - 3 else m + 9) + 2) / 5 + d - 1 in
  let doe := yoe * 365 + yoe / 4 - yoe / 100 + doy in
  era * 146097 + doe - 719468.

Definition is_leap (y : Z) : bool :=
  ((y mod 4 =? 0) && negb (y mod 100 =? 0) || (y mod 400 =? 0))%bool.

Definition days_in_month (y m : Z) : Z :=
  if m =? 2 then (if is_leap y then 29 else 28)
  else if (m =? 4) || (m =? 6) || (m =? 9) || (m =? 11) then 30
  else 31.

Definition msPerDay : Z := 86400000.

(** Exactly [n] decimal digits at the head of [s]: their value and the
    rest. *)
Fixpoint fixed_digits (n : nat) (s : string) (acc : Z) : option (Z * string) :=
  match n with
  | O => Some (acc, s)
  | S n' =>
      match s with
      | String c s' =>
          match digit_of 10 c with
          | Some d => fixed_digits n' s' (10 * acc + d)
          | None => None
          end
      | EmptyString => None
      end
  end.

(** The date-only forms of the ISO format, [YYYY], [YYYY-MM] and
    [YYYY-MM-DD], which are read as UTC: the time value, NaN when a field
    is out of bounds. [None] for every other text, and for a day that the
    format allows but the month does not have, on which engines differ. *)
Definition parse_iso_date (s : string) : option number :=
  match fixed_digits 4 s 0 with
  | Some (y, EmptyString) => Some (of_Z (days_from_civil y 1 1 * msPerDay))
  | Some (y, String "-" r1) =>
      match fixed_digits 2 r1 0 with
      | Some (m, r2) =>
          let month_ok := (1 <=? m) && (m <=? 12) in
          match r2 with
          | EmptyString =>
              Some (if month_ok then of_Z (days_from_civil y m 1 * msPerDay)
                    else NaN)
          | String "-" r3 =>
              match fixed_digits 2 r3 0 with
              | Some (d, EmptyString) =>
                  if negb (month_ok && (1 <=? d) && (d <=? 31)) then Some NaN
                  else if d <=? days_in_month y m
                       then Some (of_Z (days_from_civil y m d * msPerDay))
                       else None
              | _ => None
              end
          | _ => None
          end
      | None => None
      end
  | _ => None
  end.

(** [Date.parse(s)]. *)
Definition parse (E : Engine) (s : string) : number :=
  match parse_iso_date s with
  | Some t => t
  | None => parse_other_date E s
  end.

End JSDate.

(* ================================================================== *)
(** * JavaScript values and plain objects *)
(* ================================================================== *)

(** The primitive values a JSON result row can hold, and [undefined] for an
    absent property. *)
Inductive JSValue : Type :=
  | VUndefined
  | VNull
  | VBool (b : bool)
  | VNum (n : number)
  | VStr (s : string).

Module JS.
Import JSNumber.

Definition ToNumber (v : JSValue) : number :=
  match v with
  | VUndefined => NaN
  | VNull => pos_zero
  | VBool b => if b then of_Z 1 else pos_zero
  | VNum n => n
  | VStr s => StringToNumber s
  end.

(** [String(v)], which is also the property key [v] stands for. *)
Definition ToString (v : JSValue) : string :=
  match v with
  | VUndefined => "undefined"
  | VNull => "null"
  | VBool b => if b then "true" else "false"
  | VNum n => to_string n
  | VStr s => s
  end.

Definition ToBoolean (v : JSValue) : bool :=
  match v with
  | VUndefined | VNull => false
  | VBool b => b
  | VNum n => JSNumber.truthy n
  | VStr s => JSString.truthy s
  end.

(** [a ?? b], [a || b] and [a && b]. *)
Definition nullish (a b : JSValue) : JSValue :=
  match a with VUndefined | VNull => b | _ => a end.
Definition or (a b : JSValue) : JSValue := if ToBoolean a then a else b.

(** [a + b]: concatenation as soon as one side is a string. *)
Definition plus (a b : JSValue) : JSValue :=
  match a, b with
  | VStr s, _ => VStr (s ++ ToString b)
  | _, VStr s => VStr (ToString a ++ s)
  | _, _ => VNum (add (ToNumber a) (ToNumber b))
  end.

(** [a - b]. *)
Definition minus (a b : JSValue) : number := sub (ToNumber a) (ToNumber b).

(** The global [isNaN(v)]. *)
Definition isNaN (v : JSValue) : bool := is_nan (ToNumber v).

Definition is_undefined (v : JSValue) : bool :=
  match v with VUndefined => true | _ => false end.
Definition is_null (v : JSValue) : bool :=
  match v with VNull => true | _ => false end.
Definition typeof_string (v : JSValue) : bool :=
  match v with VStr _ => true | _ => false end.
Definition typeof_number (v : JSValue) : bool :=
  match v with VNum _ => true | _ => false end.

Definition num (z : Z) : JSValue := VNum (of_Z z).

End JS.

(** A plain object: its own properties in creation order. *)
Definition obj : Type := list (string * JSValue).

Module Obj.

(** [o[k]]. *)
Fixpoint get (o : obj) (k : string) : JSValue :=
  match o with
  | [] => VUndefined
  | (k', v) :: o' => if String.eqb k' k then v else get o' k
  end.

(** [k in o]. *)
Fixpoint has (o : obj) (k : string) : bool :=
  match o with
  | [] => false
  | (k', _) :: o' => (String.eqb k' k || has o' k)%bool
  end.

(** [o[k] = v]: an existing property keeps its place, a new one goes last. *)
Fixpoint set (o : obj) (k : string) (v : JSValue) : obj :=
  match o with
  | [] => [(k, v)]
  | (k', v') :: o' =>
      if String.eqb k' k then (k, v) :: o' else (k', v') :: set o' k v
  end.

(** An array index as a property name: the canonical decimal text of an
    integer below [2^32 - 1]. *)
Definition array_index (k : string) : option Z :=
  match JSNumber.read_digits 10 k 0 0 with
  | (v, n, EmptyString) =>
      if (0 <? n) && (v <? 4294967295) && String.eqb (JSNumber.digits v) k
      then Some v else None
  | _ => None
  end.

Fixpoint insert_index (k : Z * string) (l : list (Z * string))
  : list (Z * string) :=
  match l with
  | [] => [k]
  | k' :: l' =>
      if fst k <? fst k' then k :: l else k' :: insert_index k l'
  end.

Fixpoint index_keys (ks : list string) : list (Z * string) :=
  match ks with
  | [] => []
  | k :: ks' =>
      match array_index k with
      | Some i => insert_index (i, k) (index_keys ks')
      | None => index_keys ks'
      end
  end.

Definition is_index (k : string) : bool :=
  match array_index k with Some _ => true | None => false end.

(** [Object.keys(o)]: array indices in ascending order, then the other
    names in creation order. *)
Definition keys (o : obj) : list string :=
  let ks := map fst o in
  (map snd (index_keys ks) ++ filter (fun k => negb (is_index k)) ks)%list.

End Obj.

(** A [Map] with string keys: its entries in insertion order. *)
Module JSMap.
Section WithValues.
Context {V : Type}.

Definition t : Type := list (string * V).

Fixpoint get (m : t) (k : string) : option V :=
  match m with
  | [] => None
  | (k', v) :: m' => if String.eqb k' k then Some v else get m' k
  end.

Definition has (m : t) (k : string) : bool :=
  match get m k with Some _ => true | None => false end.

Fixpoint set (m : t) (k : string) (v : V) : t :=
  match m with
  | [] => [(k, v)]
  | (k', v') :: m' =>
      if String.eqb k' k then (k, v) :: m' else (k', v') :: set m' k v
  end.

Definition values (m : t) : list V := map snd m.
Definition entries (m : t) : list (string * V) := m.
End WithValues.
Arguments t : clear implicits.
End JSMap.

(** [Array.prototype.find]. *)
Fixpoint find_first {A : Type} (p : A -> bool) (l : list A) : option A :=
  match l with
  | [] => None
  | a :: l' => if p a then Some a else find_first p l'
  end.

(** [Array.prototype.sort(cmp)], which is stable: each element in turn is
    placed in the sorted prefix, before the first element it compares below
    (a comparator result that is NaN counts as zero). Every conforming sort
    returns this list when [cmp] orders the elements consistently; otherwise
    the order is the engine's. *)
Fixpoint sort_insert {A : Type} (cmp : A -> A -> number) (a : A) (l : list A)
  : list A :=
  match l with
  | [] => [a]
  | b :: l' =>
      if JSNumber.ltb0 (cmp a b) then a :: l else b :: sort_insert cmp a l'
  end.

Definition Array_sort {A : Type} (cmp : A -> A -> number) (l : list A)
  : list A :=
  fold_left (fun sorted a => sort_insert cmp a sorted) l [].

(** [l.slice(0, n)]. *)
Definition slice0 {A : Type} (n : nat) (l : list A) : list A := firstn n l.

(** [l.map((a, i) => f(a, i))], the index counted from [i]. *)
Fixpoint map_indexed {A B : Type} (f : A -> Z -> B) (i : Z) (l : list A)
  : list B :=
  match l with
  | [] => []
  | a :: l' => f a i :: map_indexed f (i + 1) l'
  end.

(** The outcome of an expression inside [try]. *)
Inductive completion (A : Type) : Type :=
  | Normal (a : A)
  | Throw.
Arguments Normal {A} a.
Arguments Throw {A}.

(** [new Date(v).getTime()] for a primitive [v]: a string is parsed, any
    other value is a time value; neither throws, an unreadable date has the
    time NaN. *)
Definition Date_getTime (E : Engine) (v : JSValue) : completion number :=
  Normal match v with
         | VStr s => JSDate.parse E s
         | _ => JSNumber.TimeClip (JS.ToNumber v)
         end.

(** The Number [a.localeCompare(b)] returns. *)
Definition locale_order (E : Engine) (a b : string) : number :=
  match localeCompare E a b with
  | Lt => JSNumber.of_Z (-1)
  | Eq => JSNumber.pos_zero
  | Gt => JSNumber.of_Z 1
  end.

(* ================================================================== *)
(** * The data model of [page.tsx] *)
(* ================================================================== *)

Inductive ChartType : Type := line | bar | table.
Inductive Aggregation : Type := sum | avg | count.

Record VizSpec : Type := {
  viz_type : ChartType;
  viz_x : option string;
  viz_y : option (list string);
  viz_groupBy : option (list string);
  viz_aggregation : option Aggregation
}.

(** An entry of the top-results list. *)
Record RankedItem : Type := {
  label : string;
  value : JSValue
}.

(** What a component returns, reduced to the data it displays. *)
Inductive Rendered : Type :=
  | NoRows
  | TableView (cols : list string) (body : list (list string))
  | NoValidData (message : string)
  | ChartView (kind : ChartType) (data : list obj) (seriesKeys : list string)
              (title : string) (top : list RankedItem).

(* ================================================================== *)
(** * [pickXKey] and the resolution of the y column *)
(* ================================================================== *)

Import JSString.

Definition opt_truthy (o : option string) : bool :=
  match o with Some s => truthy s | None => false end.

(** [viz.groupBy || []]. *)
Definition groupBy_list (viz : VizSpec) : list string :=
  match viz_groupBy viz with Some g => g | None => [] end.

(** [viz.groupBy && viz.groupBy.length > 0]. *)
Definition has_groupBy (viz : VizSpec) : bool :=
  match viz_groupBy viz with Some (_ :: _) => true | _ => false end.

(** [viz.x === "date"]. *)
Definition x_is_date (viz : VizSpec) : bool :=
  match viz_x viz with Some x => String.eqb x "date" | None => false end.

Definition dateColumns : list string :=
  ["date"; "month"; "year"; "quarter"; "week"; "day"].

Definition date_like (k : string) : bool :=
  (includes (toLowerCase k) "date" || includes (toLowerCase k) "month"
   || includes (toLowerCase k) "year")%bool.

(** The first part of [pickXKey]: the column an explicit [viz.x] names. *)
Definition explicit_x (viz : VizSpec) (rows : list obj) : option string :=
  match viz_x viz, rows with
  | Some x, r0 :: _ =>
      if truthy x then
        if Obj.has r0 x then Some x
        else if String.eqb x "date" then
          match find_first (Obj.has r0) dateColumns with
          | Some col => Some col
          | None =>
              match find_first date_like (Obj.keys r0) with
              | Some dateLike => if truthy dateLike then Some dateLike else None
              | None => None
              end
          end
        else None
      else None
  | _, _ => None
  end.

Definition pickXKey (viz : VizSpec) (rows : list obj) : JSValue :=
  match explicit_x viz rows with
  | Some k => VStr k
  | None =>
      let candidates := (map Some (groupBy_list viz) ++ [viz_x viz])%list in
      let present key :=
        match rows, key with
        | r0 :: _, Some k => (truthy k && Obj.has r0 k)%bool
        | _, _ => false
        end in
      match find_first present candidates with
      | Some (Some key) => VStr key
      | _ =>
          match rows with
          | [] => VNull
          | r0 :: _ =>
              let keys0 :=
                match Obj.keys r0 with k :: _ => VStr k | [] => VUndefined end in
              match find_first (fun k => JS.typeof_string (Obj.get r0 k))
                               (Obj.keys r0) with
              | Some first => if truthy first then VStr first else keys0
              | None => keys0
              end
          end
      end
  end.

(** [viz.y?.[0]]. *)
Definition yKey_of (viz : VizSpec) : JSValue :=
  match viz_y viz with Some (y0 :: _) => VStr y0 | _ => VUndefined end.

(** The test a column [k] passes to stand for the y hint [yKey]. *)
Definition fuzzy_y (yKey k : string) : bool :=
  (includes (toLowerCase k) (toLowerCase yKey)
   || includes (toLowerCase yKey) (toLowerCase k)
   || String.eqb (strip_underscores (toLowerCase k))
                 (strip_underscores (toLowerCase yKey)))%bool.

(** [actualYKey], computed alike at the head of [ChartOrTable] and of
    [FullscreenChart]. *)
Definition actualYKey (viz : VizSpec) (rows : list obj) : JSValue :=
  let yKey := yKey_of viz in
  match rows, yKey with
  | r0 :: _, VStr y =>
      if (truthy y && negb (Obj.has r0 y))%bool then
        match find_first (fuzzy_y y) (Obj.keys r0) with
        | Some foundKey => if truthy foundKey then VStr foundKey else yKey
        | None => yKey
        end
      else yKey
  | _, _ => yKey
  end.

(* ================================================================== *)
(** * The series of [ChartOrTable] *)
(* ================================================================== *)

(** The column of row [r] that carries the dimension [dim]. *)
Definition dim_column (dim : string) (r : obj) : option string :=
  find_first
    (fun k =>
       (String.eqb (toLowerCase k) (toLowerCase dim)
        || (String.eqb dim "store"
            && (String.eqb (toLowerCase k) "store_name"
                || String.eqb (toLowerCase k) "store_id")))%bool)
    (Obj.keys r).

(** [yNum]: the y value as a Number, 0 when it is not one. *)
Definition yNum_of (yVal : JSValue) : JSValue :=
  if (JS.typeof_string yVal && negb (JS.isNaN (VNum (JS.ToNumber yVal))))%bool
  then VNum (JS.ToNumber yVal)
  else if JS.typeof_number yVal then yVal
  else JS.num 0.

(** One round of [viz.groupBy.forEach] in the row mapping. *)
Definition add_dimension (r : obj) (result : obj) (dim : string) : obj :=
  match dim_column dim r with
  | Some dimKey =>
      if (truthy dimKey && negb (JS.is_undefined (Obj.get r dimKey)))%bool
      then Obj.set result dim (Obj.get r dimKey)
      else result
  | None => result
  end.

Definition map_row (viz : VizSpec) (xKey yKey : JSValue) (r : obj) : obj :=
  let xVal := Obj.get r (JS.ToString xKey) in
  let yVal := Obj.get r (JS.ToString yKey) in
  let yNum := yNum_of yVal in
  let result := [("x", JS.nullish xVal (VStr "Unknown"));
                 ("y", JS.nullish yNum (JS.num 0))] in
  if has_groupBy viz then fold_left (add_dimension r) (groupBy_list viz) result
  else result.

Definition keep_point (d : obj) : bool :=
  (negb (JS.is_undefined (Obj.get d "y")) && negb (JS.is_null (Obj.get d "y"))
   && negb (JS.isNaN (Obj.get d "y")))%bool.

Definition mapped (viz : VizSpec) (xKey yKey : JSValue) (rows : list obj)
  : list obj :=
  filter keep_point (map (map_row viz xKey yKey) rows).

(** [d[viz.groupBy[0]]]. *)
Definition first_groupBy_value (viz : VizSpec) (d : obj) : JSValue :=
  match groupBy_list viz with
  | g0 :: _ => Obj.get d g0
  | [] => Obj.get d (JS.ToString VUndefined)
  end.

Definition groupKey_of (viz : VizSpec) (d : obj) : string :=
  join "|" (map (fun dim => JS.ToString (JS.nullish (Obj.get d dim) (VStr "Unknown")))
                (groupBy_list viz)).

(** [(a || 0) + (b || 0)]. *)
Definition sum_or_zero (a b : JSValue) : JSValue :=
  JS.plus (JS.or a (JS.num 0)) (JS.or b (JS.num 0)).

(** One round of [mapped.forEach] when no x axis is given. *)
Definition group_step (viz : VizSpec) (grouped : JSMap.t obj) (d : obj)
  : JSMap.t obj :=
  let groupKey := groupKey_of viz d in
  match JSMap.get grouped groupKey with
  | Some existing =>
      JSMap.set grouped groupKey
        (Obj.set existing "y" (sum_or_zero (Obj.get existing "y") (Obj.get d "y")))
  | None =>
      let firstGroupByValue :=
        JS.nullish (first_groupBy_value viz d) (VStr groupKey) in
      JSMap.set grouped groupKey (Obj.set d "x" firstGroupByValue)
  end.

(** One round of the inner [viz.groupBy.forEach] of the pivot. The read
    [xEntry[dimValue]] is a read of an own property: for a group value that
    names a member of [Object.prototype] the code finds the inherited member
    instead, and the statements on the pivot leave those names out. *)
Definition pivot_cell (d : obj) (xEntry : obj) (dim : string) : obj :=
  if negb (JS.is_undefined (Obj.get d dim)) then
    let dimValue := JS.ToString (Obj.get d dim) in
    Obj.set xEntry dimValue (sum_or_zero (Obj.get xEntry dimValue) (Obj.get d "y"))
  else xEntry.

(** One round of [mapped.forEach] of the pivot. *)
Definition pivot_step (viz : VizSpec) (xMap : JSMap.t obj) (d : obj)
  : JSMap.t obj :=
  let xStr := JS.ToString (Obj.get d "x") in
  let xMap' :=
    if negb (JSMap.has xMap xStr) then JSMap.set xMap xStr [("x", VStr xStr)]
    else xMap in
  match JSMap.get xMap' xStr with
  | Some xEntry =>
      JSMap.set xMap' xStr (fold_left (pivot_cell d) (groupBy_list viz) xEntry)
  | None => xMap'
  end.

(** The test that selects the sort by date. *)
Definition temporal_axis (viz : VizSpec) (xKey : JSValue) : bool :=
  (x_is_date viz
   || (JS.ToBoolean xKey
       && existsb (fun k => includes (toLowerCase (JS.ToString xKey)) k)
                  ["date"; "month"; "year"]))%bool.

(** [new Date(d.x).getTime()] when it completes. *)
Definition time_of (E : Engine) (d : obj) : number :=
  match Date_getTime E (Obj.get d "x") with
  | Normal t => t
  | Throw => JSNumber.NaN
  end.

(** The comparator of the sort by date, with its [try] and [catch]. *)
Definition compare_dates (E : Engine) (a b : obj) : number :=
  match Date_getTime E (Obj.get a "x"), Date_getTime E (Obj.get b "x") with
  | Normal dateA, Normal dateB => JSNumber.sub dateA dateB
  | _, _ =>
      locale_order E (JS.ToString (Obj.get a "x")) (JS.ToString (Obj.get b "x"))
  end.

Definition compare_x (E : Engine) (a b : obj) : number :=
  locale_order E (JS.ToString (Obj.get a "x")) (JS.ToString (Obj.get b "x")).

Definition is_nonempty {A : Type} (l : list A) : bool :=
  match l with [] => false | _ :: _ => true end.

(** [data], as the body of [ChartOrTable] computes it. *)
Definition ChartOrTable_data (E : Engine) (viz : VizSpec) (rows : list obj)
  : list obj :=
  let xKey := pickXKey viz rows in
  let yKey := actualYKey viz rows in
  if (is_nonempty rows && JS.ToBoolean yKey)%bool then
    let mapped := mapped viz xKey yKey rows in
    if has_groupBy viz then
      if (negb (JS.ToBoolean xKey) || negb (opt_truthy (viz_x viz)))%bool then
        JSMap.values (fold_left (group_step viz) mapped [])
      else if (JS.ToBoolean xKey && has_groupBy viz)%bool then
        let data := JSMap.values (fold_left (pivot_step viz) mapped []) in
        if temporal_axis viz xKey then Array_sort (compare_dates E) data
        else Array_sort (compare_x E) data
      else mapped
    else mapped
  else [].

(* ================================================================== *)
(** * The top-results list of [ChartOrTable] *)
(* ================================================================== *)

(** [xKey ? String(r[xKey] ?? 'N/A') : other]. *)
Definition x_label (xKey : JSValue) (other : string) (r : obj) : string :=
  if JS.ToBoolean xKey
  then JS.ToString (JS.nullish (Obj.get r (JS.ToString xKey)) (VStr "N/A"))
  else other.

(** [displayYKey ? (r[displayYKey] ?? dflt) : dflt]. *)
Definition y_shown (displayYKey dflt : JSValue) (r : obj) : JSValue :=
  if JS.ToBoolean displayYKey
  then JS.nullish (Obj.get r (JS.ToString displayYKey)) dflt
  else dflt.

(** [String(r[groupByColumn] ?? 'Unknown')]. *)
Definition group_label (groupByColumn : string) (r : obj) : string :=
  JS.ToString (JS.nullish (Obj.get r groupByColumn) (VStr "Unknown")).

(** [Number(r[displayYKey] ?? 0)]. *)
Definition measure (displayYKey : JSValue) (r : obj) : number :=
  JS.ToNumber (JS.nullish (Obj.get r (JS.ToString displayYKey)) (JS.num 0)).

(** [n || 0] on a Number. *)
Definition or_zero (n : number) : number :=
  if JSNumber.truthy n then n else JSNumber.of_Z 0.

(** One round of [rows.forEach] that totals the measure per group. *)
Definition aggregate_step (groupByColumn : string) (displayYKey : JSValue)
  (aggregated : JSMap.t number) (r : obj) : JSMap.t number :=
  let groupValue := group_label groupByColumn r in
  let yValue := measure displayYKey r in
  let so_far :=
    match JSMap.get aggregated groupValue with
    | Some n => or_zero n
    | None => JSNumber.of_Z 0
    end in
  JSMap.set aggregated groupValue (JSNumber.add so_far yValue).

(** [(a, b) => b.value - a.value]. *)
Definition by_value_desc (a b : RankedItem) : number :=
  JS.minus (value b) (value a).

(** The comparator of the plain ranking: a value that is not a Number counts
    as 0. *)
Definition by_number_desc (a b : RankedItem) : number :=
  let aVal := if JS.typeof_number (value a) then value a else JS.num 0 in
  let bVal := if JS.typeof_number (value b) then value b else JS.num 0 in
  JS.minus bVal aVal.

(** The list when the group column or the measure is missing: the first ten
    rows as they come. *)
Definition first_rows (xKey displayYKey : JSValue) (rows : list obj)
  : list RankedItem :=
  map_indexed
    (fun r i =>
       {| label := x_label xKey
                     ("Row " ++ JSNumber.to_string (JSNumber.of_Z (i + 1))) r;
          value := y_shown displayYKey (VStr "N/A") r |})
    0 (slice0 10 rows).

(** The list for a time series: the total of the measure per group. *)
Definition totals_by_group (groupByColumn : string) (displayYKey : JSValue)
  (rows : list obj) : list RankedItem :=
  let aggregated :=
    fold_left (aggregate_step groupByColumn displayYKey) rows [] in
  slice0 10
    (Array_sort by_value_desc
       (map (fun e => {| label := fst e; value := VNum (snd e) |})
            (JSMap.entries aggregated))).

(** The list otherwise: the rows by decreasing measure. *)
Definition top_rows (xKey displayYKey : JSValue) (rows : list obj)
  : list RankedItem :=
  slice0 10
    (Array_sort by_number_desc
       (map (fun r => {| label := x_label xKey "N/A" r;
                         value := y_shown displayYKey (JS.num 0) r |})
            rows)).

(** [viz.groupBy[0]], read where the list is known not to be empty. *)
Definition groupByKey_of (viz : VizSpec) : string :=
  match groupBy_list viz with g0 :: _ => g0 | [] => "undefined" end.

(** [displayData] of the [TopList] inside [ChartOrTable]. *)
Definition ChartOrTable_TopList (viz : VizSpec) (rows : list obj)
  (xKey actualYKey : JSValue) : list RankedItem :=
  let displayYKey := JS.or actualYKey (yKey_of viz) in
  match rows with
  | r0 :: _ =>
      if (x_is_date viz && has_groupBy viz)%bool then
        match dim_column (groupByKey_of viz) r0 with
        | Some groupByColumn =>
            if (truthy groupByColumn && JS.ToBoolean displayYKey)%bool
            then totals_by_group groupByColumn displayYKey rows
            else first_rows xKey displayYKey rows
        | None => first_rows xKey displayYKey rows
        end
      else top_rows xKey displayYKey rows
  | [] => top_rows xKey displayYKey rows
  end.

(** The heading over the list. *)
Definition TopList_title (viz : VizSpec) : string :=
  if (x_is_date viz && has_groupBy viz)%bool then
    "Total by " ++ match groupBy_list viz with
                   | g0 :: _ => if truthy g0 then g0 else "Category"
                   | [] => "Category"
                   end
  else "Top Results".

(* ================================================================== *)
(** * The components *)
(* ================================================================== *)

(** [allKeys.add(k)] on a [Set]. *)
Definition set_add (seen : list string) (k : string) : list string :=
  if existsb (String.eqb k) seen then seen else (seen ++ [k])%list.

(** The names of the series drawn for a grouped chart. *)
Definition seriesKeys_of (viz : VizSpec) (data : list obj) : list string :=
  if (has_groupBy viz && is_nonempty data)%bool then
    fold_left
      (fun allKeys d =>
         fold_left
           (fun allKeys k =>
              if (negb (String.eqb k "x") && negb (String.eqb k "date")
                  && negb (String.eqb k "y"))%bool
              then set_add allKeys k else allKeys)
           (Obj.keys d) allKeys)
      data []
  else [].

(** The cells of a table row. *)
Definition table_cells (cols : list string) (r : obj) : list string :=
  map (fun c => JS.ToString (Obj.get r c)) cols.

Definition table_row_limit : nat := 50.

(** The text shown when a chart has no point. *)
Definition no_data_message (rows : list obj) : string :=
  "No valid data points found. Available keys: "
  ++ match rows with
     | r0 :: _ => join ", " (Obj.keys r0)
     | [] => "none"
     end.

Definition ChartOrTable (E : Engine) (viz : VizSpec) (rows : list obj)
  : Rendered :=
  match viz_type viz with
  | table =>
      match rows with
      | [] => NoRows
      | r0 :: _ =>
          let cols := Obj.keys r0 in
          TableView cols
            (map (table_cells cols) (slice0 table_row_limit rows))
      end
  | kind =>
      let data := ChartOrTable_data E viz rows in
      match data with
      | [] =>
          NoValidData (no_data_message rows)
      | _ :: _ =>
          ChartView kind data (seriesKeys_of viz data) (TopList_title viz)
            (ChartOrTable_TopList viz rows (pickXKey viz rows)
               (actualYKey viz rows))
      end
  end.

(** [data], as the body of [FullscreenChart] computes it. *)
Definition FullscreenChart_data (E : Engine) (viz : VizSpec) (rows : list obj)
  : list obj :=
  let xKey := pickXKey viz rows in
  let yKey := actualYKey viz rows in
  if (is_nonempty rows && JS.ToBoolean yKey)%bool then
    let mapped := mapped viz xKey yKey rows in
    if has_groupBy viz then
      if (negb (JS.ToBoolean xKey) || negb (opt_truthy (viz_x viz)))%bool then
        JSMap.values (fold_left (group_step viz) mapped [])
      else
        let data := JSMap.values (fold_left (pivot_step viz) mapped []) in
        if temporal_axis viz xKey then Array_sort (compare_dates E) data
        else Array_sort (compare_x E) data
    else mapped
  else [].

(** The entries of the [TopList] inside [FullscreenChart]. *)
Definition FullscreenChart_TopList (viz : VizSpec) (rows : list obj)
  (xKey actualYKey : JSValue) : list RankedItem :=
  let displayYKey := JS.or actualYKey (yKey_of viz) in
  map (fun r =>
         let xVal := if JS.ToBoolean xKey
                     then JS.nullish (Obj.get r (JS.ToString xKey)) (VStr "N/A")
                     else VStr "N/A" in
         let yVal := y_shown displayYKey (VStr "N/A") r in
         {| label := JS.ToString xVal; value := yVal |})
      (slice0 20 rows).

(** [FullscreenChart]: nothing when there is no data, otherwise the chart
    (a line chart for [line], a bar chart for every other type). *)
Definition FullscreenChart (E : Engine) (viz : VizSpec) (rows : list obj)
  : option Rendered :=
  let data := FullscreenChart_data E viz rows in
  match data with
  | [] => None
  | _ :: _ =>
      Some (ChartView match viz_type viz with line => line | _ => bar end
                      data (seriesKeys_of viz data) "Top Results"
                      (FullscreenChart_TopList viz rows (pickXKey viz rows)
                         (actualYKey viz rows)))
  end.

(* ================================================================== *)
(** * A reference engine, for the worked examples *)
(* ================================================================== *)

(** Collation by code unit, and no date read outside the ISO date format. *)
Definition reference_engine : Engine :=
  {| localeCompare := String.compare;
     parse_other_date := fun _ => JSNumber.NaN |}.

(* ================================================================== *)
(** * Grouping: what a loop that accumulates into a [Map] computes *)
(* ================================================================== *)

(** The loops of the transform all have one shape: each element is filed
    under a key; the first element of a key creates the entry, the later ones
    update it. [grouped] says what comes out, without the [Map]. *)
Section GroupFold.
Context {A V : Type}.
Variable key : A -> string.
Variable init : A -> V.
Variable upd : V -> A -> V.

Definition upsert (m : JSMap.t V) (a : A) : JSMap.t V :=
  match JSMap.get m (key a) with
  | Some v => JSMap.set m (key a) (upd v a)
  | None => JSMap.set m (key a) (init a)
  end.

(** The elements filed under [k], in order. *)
Definition bucket (k : string) (l : list A) : list A :=
  filter (fun a => String.eqb (key a) k) l.

(** The entry a bucket folds to. *)
Definition merged (b : list A) : option V :=
  match b with
  | [] => None
  | a :: b' => Some (fold_left upd b' (init a))
  end.

(** The distinct keys, in the order of their first occurrence. *)
Fixpoint distinct (ks : list string) : list string :=
  match ks with
  | [] => []
  | k :: ks' => k :: filter (fun k' => negb (String.eqb k' k)) (distinct ks')
  end.

Definition grouped (l : list A) : list (string * V) :=
  flat_map (fun k => match merged (bucket k l) with
                     | Some v => [(k, v)]
                     | None => []
                     end)
           (distinct (map key l)).

(** An entry of the [Map], once the elements of [l] have been filed too. *)
Definition advance (l : list A) (e : string * V) : string * V :=
  (fst e, fold_left upd (bucket (fst e) l) (snd e)).
End GroupFold.

(** No two neighbours of [l] are the wrong way round for [cmp]: the earlier
    one sorts first, or at least the later one does not. *)
Fixpoint in_order {A : Type} (cmp : A -> A -> number) (l : list A) : Prop :=
  match l with
  | a :: (b :: _) as l' =>
      (JSNumber.ltb0 (cmp a b) = true \/ JSNumber.ltb0 (cmp b a) = false)
      /\ in_order cmp l'
  | _ => True
  end.


(** No element of [l] is followed by one that [cmp] puts strictly before
    it. *)
Fixpoint sorted_by {A : Type} (cmp : A -> A -> number) (l : list A) : Prop :=
  match l with
  | a :: (b :: _) as l' =>
      JSNumber.ltb0 (cmp b a) = false /\ sorted_by cmp l'
  | _ => True
  end.

(* ================================================================== *)
(** * The three loops as groupings *)
(* ================================================================== *)

(** The text of a point's x, the key of the pivot. *)
Definition x_text (d : obj) : string := JS.ToString (Obj.get d "x").

(** The pivot: the row a first point opens, and how a later point of the same
    x changes it. *)
Definition pivot_upd (viz : VizSpec) (xEntry : obj) (d : obj) : obj :=
  fold_left (pivot_cell d) (groupBy_list viz) xEntry.
Definition pivot_init (viz : VizSpec) (d : obj) : obj :=
  pivot_upd viz [("x", VStr (x_text d))] d.

(** The y values that land in column [c]: one for every point and every
    dimension of [dims] whose value, as text, is [c]. *)
Definition contributions (dims : list string) (c : string) (points : list obj)
  : list JSValue :=
  flat_map
    (fun d =>
       flat_map
         (fun dim =>
            if (negb (JS.is_undefined (Obj.get d dim))
                && String.eqb (JS.ToString (Obj.get d dim)) c)%bool
            then [Obj.get d "y"] else [])
         dims)
    points.

(** The aggregation without x: the point a first row of a key becomes, and
    how a later row of the key changes it. *)
Definition group_init (viz : VizSpec) (d : obj) : obj :=
  Obj.set d "x" (JS.nullish (first_groupBy_value viz d) (VStr (groupKey_of viz d))).
Definition group_upd (existing : obj) (d : obj) : obj :=
  Obj.set existing "y" (sum_or_zero (Obj.get existing "y") (Obj.get d "y")).


(* ================================================================== *)
(** * The inputs of the worked examples *)
(* ================================================================== *)

Module Examples.

Definition sales_row (month region : string) (sales : JSValue) : obj :=
  [("month", VStr month); ("region", VStr region); ("sales", sales)].

(** Three rows of monthly sales by region, and a line chart of them over
    the date, one series per region. *)
Definition monthly_rows : list obj :=
  [sales_row "2024-01" "North" (JS.num 10);
   sales_row "2024-01" "South" (JS.num 20);
   sales_row "2024-02" "North" (JS.num 5)].

Definition monthly_viz : VizSpec :=
  {| viz_type := line; viz_x := Some "date"; viz_y := Some ["sales"];
     viz_groupBy := Some ["region"]; viz_aggregation := Some sum |}.

(** Three rows of sales by region with the measure as text, and a bar chart
    grouped by region with no x. *)
Definition region_rows : list obj :=
  [[("region", VStr "North"); ("sales", VStr "10")];
   [("region", VStr "North"); ("sales", VStr "5")];
   [("region", VStr "South"); ("sales", VStr "3")]].

Definition region_viz : VizSpec :=
  {| viz_type := bar; viz_x := None; viz_y := Some ["sales"];
     viz_groupBy := Some ["region"]; viz_aggregation := Some sum |}.

(** A plain bar chart of a measure over the region. *)
Definition plain_viz (y : string) : VizSpec :=
  {| viz_type := bar; viz_x := Some "region"; viz_y := Some [y];
     viz_groupBy := None; viz_aggregation := None |}.

(** Sales by ISO week: the week labels are not dates. *)
Definition weekly_rows : list obj :=
  [[("week", VStr "2024-20"); ("region", VStr "North"); ("sales", JS.num 7)];
   [("week", VStr "2024-15"); ("region", VStr "North"); ("sales", JS.num 3)]].

Definition two_regions : list obj :=
  [[("region", VStr "North"); ("sales", JS.num 1)];
   [("region", VStr "South"); ("sales", JS.num 2)]].

Definition table_viz : VizSpec :=
  {| viz_type := table; viz_x := None; viz_y := None;
     viz_groupBy := None; viz_aggregation := None |}.

(** Monthly sales with two rows for the same month and region. *)
Definition repeated_rows : list obj :=
  [sales_row "2024-01" "North" (JS.num 10);
   sales_row "2024-01" "North" (JS.num 5);
   sales_row "2024-02" "North" (JS.num 7)].

(** Sales by region and category, and a bar chart grouped by both with no
    x. *)
Definition category_row (region category : string) (sales : JSValue) : obj :=
  [("region", VStr region); ("category", VStr category); ("sales", sales)].

Definition category_rows : list obj :=
  [category_row "North" "Food" (JS.num 10);
   category_row "North" "Toys" (JS.num 3);
   category_row "North" "Food" (JS.num 5)].

Definition category_viz : VizSpec :=
  {| viz_type := bar; viz_x := None; viz_y := Some ["sales"];
     viz_groupBy := Some ["region"; "category"]; viz_aggregation := Some sum |}.


End Examples.

(** The one y value for which a row yields no point: the Number NaN. *)
Definition y_is_NaN (yVal : JSValue) : bool :=
  match yVal with VNum n => JSNumber.is_nan n | _ => false end.

(* ================================================================== *)
(** * The page: its state, [onSend] and [ChatMessage] *)
(* ================================================================== *)

Record ChatResponse : Type := {
  resp_answer : string;
  resp_sql : option string;
  resp_viz : option VizSpec;
  resp_rows : option (list obj);
  resp_schema : option (list (string * string))
}.

Record Turn : Type := {
  turn_user : string;
  turn_assistant : option ChatResponse
}.

(** The four state cells of [Page]. *)
Record PageState : Type := {
  st_input : string;
  st_loading : bool;
  st_error : option string;
  st_turns : list Turn
}.

Definition initial_state : PageState :=
  {| st_input := ""; st_loading := false; st_error := None; st_turns := [] |}.

(** How the request of [onSend] ends: [fetch] rejects with an error, or a
    response arrives with its status, whose body reads as a [ChatResponse] or
    makes [r.json()] reject with an error. *)
Inductive FetchResult : Type :=
  | Rejected (message : string)
  | Responded (status : Z) (body : string + ChatResponse).

(** [r.ok]. *)
Definition status_ok (status : Z) : bool := (200 <=? status) && (status <=? 299).

(** [copy[copy.length - 1] = v] on a copy of [l]; on an empty array the
    assignment makes no element. *)
Fixpoint replace_last {A : Type} (l : list A) (v : A) : list A :=
  match l with
  | [] => []
  | [_] => [v]
  | a :: l' => a :: replace_last l' v
  end.

(** The head of [onSend], up to the request: nothing on a blank input,
    otherwise the question and the state after the four updates. *)
Definition onSend_begin (st : PageState) : option (string * PageState) :=
  if negb (truthy (JSNumber.trim (st_input st))) then None
  else
    let question := st_input st in
    Some (question,
          {| st_input := "";
             st_loading := true;
             st_error := None;
             st_turns := (st_turns st ++ [{| turn_user := question;
                                             turn_assistant := None |}])%list |}).

(** The body of [try] up to [r.json()]: the response read, or the message of
    the error thrown on the way. *)
Definition try_request (r : FetchResult) : string + ChatResponse :=
  match r with
  | Rejected message => inl message
  | Responded status body =>
      if negb (status_ok status)
      then inl ("HTTP " ++ JSNumber.to_string (JSNumber.of_Z status))
      else body
  end.

Definition error_response (message : string) : ChatResponse :=
  {| resp_answer := "Error: " ++ message; resp_sql := None; resp_viz := None;
     resp_rows := None; resp_schema := None |}.

(** The rest of [onSend], once the request has ended, on the state of that
    moment: [try], [catch] and [finally]. *)
Definition onSend_settle (question : string) (r : FetchResult) (st : PageState)
  : PageState :=
  match try_request r with
  | inr data =>
      {| st_input := st_input st;
         st_loading := false;
         st_error := st_error st;
         st_turns := replace_last (st_turns st)
                       {| turn_user := question; turn_assistant := Some data |} |}
  | inl message =>
      {| st_input := st_input st;
         st_loading := false;
         st_error := Some message;
         st_turns := replace_last (st_turns st)
                       {| turn_user := question;
                          turn_assistant := Some (error_response message) |} |}
  end.

(** A whole run of [onSend] with nothing in between. *)
Definition onSend (st : PageState) (r : FetchResult) : PageState :=
  match onSend_begin st with
  | None => st
  | Some (question, st') => onSend_settle question r st'
  end.

(** [onChange] of the input box. *)
Definition type_input (text : string) (st : PageState) : PageState :=
  {| st_input := text; st_loading := st_loading st; st_error := st_error st;
     st_turns := st_turns st |}.

(** A session: the user types a text and sends it, the request ends, and so
    on. *)
Definition session (sends : list (string * FetchResult)) (st : PageState)
  : PageState :=
  fold_left (fun st send => onSend (type_input (fst send) st) (snd send))
            sends st.

(** What [ChatMessage] shows for a turn. *)
Inductive PanelBody : Type :=
  | BodyChart (inline : Rendered) (fullscreen : option Rendered)
  | BodySql (sql : string)
  | BodyNothing.

Record Panel : Type := {
  panel_fullscreen_button : bool;
  panel_body : PanelBody;
  panel_details : option (string * option VizSpec * nat)
}.

Record MessageView : Type := {
  view_question : string;
  view_answer : string;
  view_panel : option Panel
}.

(** [sql] when it is truthy. *)
Definition truthy_sql (sql : option string) : option string :=
  match sql with
  | Some s => if truthy s then Some s else None
  | None => None
  end.

Definition ChatMessage (E : Engine) (turn : Turn) (showDetails showFullscreen : bool)
  : MessageView :=
  let viz := match turn_assistant turn with
             | Some a => resp_viz a | None => None end in
  let sql := match turn_assistant turn with
             | Some a => resp_sql a | None => None end in
  let rows := match turn_assistant turn with
              | Some {| resp_rows := Some rows |} => rows
              | _ => []
              end in
  let answer := match turn_assistant turn with
                | Some a => if truthy (resp_answer a) then resp_answer a
                            else "Processing..."
                | None => "Processing..."
                end in
  {| view_question := turn_user turn;
     view_answer := answer;
     view_panel :=
       match viz, truthy_sql sql with
       | None, None => None
       | _, _ =>
           Some {| panel_fullscreen_button :=
                     match viz with Some _ => true | None => false end;
                   panel_body :=
                     match viz, truthy_sql sql with
                     | Some v, _ =>
                         BodyChart (ChartOrTable E v rows)
                           (if showFullscreen then FullscreenChart E v rows
                            else None)
                     | None, Some s => BodySql s
                     | None, None => BodyNothing
                     end;
                   panel_details :=
                     match truthy_sql sql with
                     | Some s => if showDetails
                                 then Some (s, viz, List.length rows) else None
                     | None => None
                     end |}
       end |}.

(** [allKeys.add(k)] for the names that pass [keep]. *)
Definition add_if (keep : string -> bool) (allKeys : list string) (k : string)
  : list string :=
  if keep k then set_add allKeys k else allKeys.

(** A value that is a Number, NaN and the infinities included. *)
Definition is_number (v : JSValue) : Prop := exists n, v = VNum n.

(** A turn that has its answer. *)
Definition answered (t : Turn) : Prop := turn_assistant t <> None.

(** An input that [onSend] does send. *)
Definition sendable (text : string) : bool := truthy (JSNumber.trim text).

(** What a request leaves in the page: the answer stored in the turn and the
    error shown under the input box. *)
Definition stored_answer (r : FetchResult) : ChatResponse :=
  match try_request r with
  | inr data => data
  | inl message => error_response message
  end.
Definition shown_error (r : FetchResult) : option string :=
  match try_request r with
  | inr _ => None
  | inl message => Some message
  end.

(* ================================================================== *)
(** * Plain sums, and the names an object inherits *)
(* ================================================================== *)

(** A Number that [n || 0] leaves as it is: any but NaN and [-0]. *)
Definition ordinary (n : number) : bool :=
  match n with
  | S754_nan | S754_zero true => false
  | _ => true
  end.

(** The partial sums of [ys] added to [acc] one after the other. *)
Fixpoint running_sums (acc : number) (ys : list number) : list number :=
  match ys with
  | [] => []
  | y :: ys' => JSNumber.add acc y :: running_sums (JSNumber.add acc y) ys'
  end.

(** The sum of [ys], added in order to [+0]. *)
Definition sum_of (ys : list number) : number :=
  fold_left JSNumber.add ys JSNumber.pos_zero.

(** The property names every plain object inherits from [Object.prototype]
    (ECMAScript 20.1.3 and B.2.2). *)
Definition Object_prototype_names : list string :=
  ["constructor"; "hasOwnProperty"; "isPrototypeOf"; "propertyIsEnumerable";
   "toLocaleString"; "toString"; "valueOf"; "__proto__"; "__defineGetter__";
   "__defineSetter__"; "__lookupGetter__"; "__lookupSetter__"].

(** A name under which a plain object has nothing but its own property. *)
Definition own_name (k : string) : bool :=
  negb (existsb (String.eqb k) Object_prototype_names).

(** The column names a chart specification mentions. *)
Definition hint_names (viz : VizSpec) : list string :=
  (match viz_x viz with Some x => [x] | None => [] end
   ++ match viz_y viz with Some ys => ys | None => [] end
   ++ groupBy_list viz)%list.

(** No hint of the chart and no column of a row is an inherited name. *)
Definition own_names (viz : VizSpec) (rows : list obj) : bool :=
  (forallb own_name (hint_names viz)
   && forallb (fun r => forallb own_name (map fst r)) rows)%bool.
(* ================================================================== *)
(** * Lemmas on the containers *)
(* ================================================================== *)

Lemma find_first_some {A : Type} (p : A -> bool) (l : list A) (a : A) :
  find_first p l = Some a ->
  In a l /\ p a = true /\
  exists l1 l2, l = (l1 ++ a :: l2)%list /\ forallb (fun b => negb (p b)) l1 = true.
Proof.
  induction l as [|b l IH]; simpl; [discriminate|].
  destruct (p b) eqn:Hb.
  - intros [= ->]. repeat split; auto. exists [], l. auto.
  - intros H. destruct (IH H) as (Hin & Hp & l1 & l2 & -> & Hall).
    repeat split; auto. exists (b :: l1), l2. simpl. rewrite Hb. auto.
Qed.

Lemma find_first_none {A : Type} (p : A -> bool) (l : list A) :
  find_first p l = None <-> forall a, In a l -> p a = false.
Proof.
  induction l as [|b l IH]; simpl.
  - split; [intros _ a []|reflexivity].
  - destruct (p b) eqn:Hb.
    + split; [discriminate|]. intros H. rewrite (H b) in Hb; [discriminate|auto].
    + rewrite IH. split.
      * intros H a [<-|Ha]; auto.
      * intros H a Ha. apply H. auto.
Qed.

Lemma find_first_exists {A : Type} (p : A -> bool) (l : list A) (a : A) :
  In a l -> p a = true -> exists b, find_first p l = Some b.
Proof.
  intros Ha Hp. destruct (find_first p l) as [b|] eqn:Hf; [eauto|].
  rewrite find_first_none in Hf. rewrite (Hf a Ha) in Hp. discriminate.
Qed.

Module JSMapFacts.
Section Facts.
Context {V : Type}.
Implicit Types (m : JSMap.t V) (k : string) (v : V).

Lemma get_set_same m k v : JSMap.get (JSMap.set m k v) k = Some v.
Proof.
  induction m as [|[k' v'] m IH]; simpl.
  - now rewrite String.eqb_refl.
  - destruct (String.eqb k' k) eqn:Hk; simpl.
    + now rewrite String.eqb_refl.
    + now rewrite Hk.
Qed.

Lemma get_set_other m k k' v :
  k <> k' -> JSMap.get (JSMap.set m k v) k' = JSMap.get m k'.
Proof.
  intros Hne. induction m as [|[k0 v0] m IH]; simpl.
  - destruct (String.eqb_spec k k'); [contradiction|reflexivity].
  - destruct (String.eqb_spec k0 k) as [->|Hk0]; simpl.
    + destruct (String.eqb_spec k k'); [contradiction|reflexivity].
    + now rewrite IH.
Qed.

Lemma set_fresh m k v :
  JSMap.get m k = None -> JSMap.set m k v = (m ++ [(k, v)])%list.
Proof.
  induction m as [|[k' v'] m IH]; simpl; [reflexivity|].
  destruct (String.eqb k' k); [discriminate|].
  intros H. now rewrite IH.
Qed.

Lemma set_set m k v v' :
  JSMap.set (JSMap.set m k v) k v' = JSMap.set m k v'.
Proof.
  induction m as [|[k0 v0] m IH]; simpl.
  - now rewrite String.eqb_refl.
  - destruct (String.eqb k0 k) eqn:Hk; simpl.
    + now rewrite String.eqb_refl.
    + now rewrite Hk, IH.
Qed.

Lemma get_none_keys m k :
  JSMap.get m k = None <-> ~ In k (map fst m).
Proof.
  induction m as [|[k' v'] m IH]; simpl.
  - tauto.
  - destruct (String.eqb_spec k' k) as [->|Hk].
    + split; [discriminate|]. intros H. exfalso. auto.
    + rewrite IH. tauto.
Qed.

Lemma keys_set_present m k v v0 :
  JSMap.get m k = Some v0 -> map fst (JSMap.set m k v) = map fst m.
Proof.
  induction m as [|[k' v'] m IH]; simpl; [discriminate|].
  destruct (String.eqb_spec k' k) as [->|Hk]; simpl; [reflexivity|].
  intros H. now rewrite IH.
Qed.
End Facts.
End JSMapFacts.

Lemma filter_filter {A : Type} (p q : A -> bool) (l : list A) :
  filter p (filter q l) = filter (fun a => (q a && p a)%bool) l.
Proof.
  induction l as [|a l IH]; simpl; [reflexivity|].
  destruct (q a); simpl; [destruct (p a)|]; now rewrite IH.
Qed.

Lemma filter_map_comm {A B : Type} (f : A -> B) (p : B -> bool) (l : list A) :
  filter p (map f l) = map f (filter (fun a => p (f a)) l).
Proof.
  induction l as [|a l IH]; simpl; [reflexivity|].
  destruct (p (f a)); simpl; now rewrite IH.
Qed.

Lemma filter_all {A : Type} (p : A -> bool) (l : list A) :
  (forall a, In a l -> p a = true) -> filter p l = l.
Proof.
  induction l as [|a l IH]; simpl; intros H; [reflexivity|].
  rewrite (H a) by auto. f_equal. apply IH. auto.
Qed.

Lemma flat_map_ext_on {A B : Type} (f g : A -> list B) (l : list A) :
  (forall a, In a l -> f a = g a) -> flat_map f l = flat_map g l.
Proof.
  induction l as [|a l IH]; simpl; intros H; [reflexivity|].
  rewrite (H a) by auto. f_equal. apply IH. auto.
Qed.

Lemma distinct_filter (p : string -> bool) (ks : list string) :
  distinct (filter p ks) = filter p (distinct ks).
Proof.
  induction ks as [|k ks IH]; simpl; [reflexivity|].
  destruct (p k) eqn:Hp; simpl.
  - rewrite IH, !filter_filter. f_equal. apply filter_ext.
    intros k'. apply andb_comm.
  - rewrite IH, filter_filter. apply filter_ext. intros k'.
    destruct (String.eqb_spec k' k) as [->|]; simpl; [now rewrite Hp|reflexivity].
Qed.

Lemma distinct_in (ks : list string) (k : string) :
  In k (distinct ks) <-> In k ks.
Proof.
  induction ks as [|k0 ks IH]; simpl; [tauto|].
  rewrite filter_In, IH. destruct (String.eqb_spec k k0) as [->|Hk]; simpl.
  - tauto.
  - split; [tauto|]. intros [->|H]; [contradiction|auto].
Qed.

Lemma distinct_NoDup (ks : list string) : NoDup (distinct ks).
Proof.
  induction ks as [|k ks IH]; simpl; constructor.
  - rewrite filter_In. intros [_ H]. now rewrite String.eqb_refl in H.
  - now apply NoDup_filter.
Qed.

Section GroupFoldFacts.
Context {A V : Type}.
Variable key : A -> string.
Variable init : A -> V.
Variable upd : V -> A -> V.

Local Abbreviation ups := (upsert key init upd).
Local Abbreviation bkt := (bucket key).
Local Abbreviation grp := (grouped key init upd).
Local Abbreviation adv := (advance key upd).

Lemma bucket_cons_same a l : bkt (key a) (a :: l) = a :: bkt (key a) l.
Proof. unfold bucket. simpl. now rewrite String.eqb_refl. Qed.

Lemma bucket_cons_other k a l : key a <> k -> bkt k (a :: l) = bkt k l.
Proof.
  intros H. unfold bucket. simpl.
  destruct (String.eqb_spec (key a) k); [contradiction|reflexivity].
Qed.

Lemma advance_nil (m : JSMap.t V) : map (adv []) m = m.
Proof.
  induction m as [|[k v] m IH]; simpl; [reflexivity|]. now rewrite IH.
Qed.

Lemma advance_cons_notin a l (m : JSMap.t V) :
  ~ In (key a) (map fst m) -> map (adv (a :: l)) m = map (adv l) m.
Proof.
  induction m as [|[k v] m IH]; simpl; intros H; [reflexivity|].
  rewrite IH by tauto. unfold advance at 1 3. simpl fst. simpl snd.
  rewrite bucket_cons_other by (intros E; apply H; auto). reflexivity.
Qed.

Lemma advance_set_present a v l (m : JSMap.t V) :
  NoDup (map fst m) -> JSMap.get m (key a) = Some v ->
  map (adv l) (JSMap.set m (key a) (upd v a)) = map (adv (a :: l)) m.
Proof.
  induction m as [|[k0 v0] m IH]; simpl; [discriminate|].
  intros Hnd Hget. inversion Hnd as [|? ? Hnotin Hnd']; subst.
  destruct (String.eqb_spec k0 (key a)) as [->|Hk].
  - injection Hget as ->. simpl.
    rewrite advance_cons_notin by assumption. f_equal.
    unfold advance. cbn [fst snd]. now rewrite bucket_cons_same.
  - simpl. rewrite IH by assumption. f_equal.
    unfold advance. cbn [fst snd].
    rewrite bucket_cons_other by congruence. reflexivity.
Qed.

Lemma fold_upsert_from l : forall m : JSMap.t V,
  NoDup (map fst m) ->
  fold_left ups l m
  = (map (adv l) m
     ++ grp (filter (fun a => negb (JSMap.has m (key a))) l))%list.
Proof.
  induction l as [|a l IH]; intros m Hnd; simpl.
  - now rewrite advance_nil, app_nil_r.
  - unfold upsert at 2.
    destruct (JSMap.get m (key a)) as [v|] eqn:Hget.
    + assert (Hhas : JSMap.has m (key a) = true)
        by (unfold JSMap.has; now rewrite Hget).
      rewrite Hhas. simpl.
      rewrite IH
        by (erewrite JSMapFacts.keys_set_present by eassumption; assumption).
      rewrite advance_set_present by assumption. f_equal. f_equal.
      apply filter_ext. intros b. f_equal.
      unfold JSMap.has.
      destruct (String.eqb_spec (key a) (key b)) as [E|E].
      * rewrite <- E, JSMapFacts.get_set_same, Hget. reflexivity.
      * now rewrite JSMapFacts.get_set_other.
    + assert (Hnotin : ~ In (key a) (map fst m))
        by now apply JSMapFacts.get_none_keys.
      assert (Hhas : JSMap.has m (key a) = false)
        by (unfold JSMap.has; now rewrite Hget).
      rewrite Hhas. simpl negb. cbv iota.
      rewrite JSMapFacts.set_fresh by assumption.
      rewrite IH.
      2:{ rewrite map_app. simpl. apply NoDup_app_remove_l with (l := []).
          simpl. apply Permutation_NoDup with (l := key a :: map fst m).
          - apply Permutation_cons_append.
          - now constructor. }
      rewrite map_app, <- app_assoc. simpl.
      rewrite advance_cons_notin by assumption. f_equal.
      set (L := filter (fun b => negb (JSMap.has m (key b))) l).
      assert (HL : filter (fun b => negb (JSMap.has (m ++ [(key a, init a)])%list (key b))) l
                   = filter (fun b => negb (String.eqb (key b) (key a))) L).
      { unfold L. rewrite filter_filter. apply filter_ext. intros b.
        unfold JSMap.has.
        destruct (String.eqb_spec (key b) (key a)) as [E|E].
        - rewrite E. rewrite <- (JSMapFacts.set_fresh m (key a) (init a) Hget).
          rewrite JSMapFacts.get_set_same, Hget. reflexivity.
        - rewrite <- (JSMapFacts.set_fresh m (key a) (init a) Hget).
          rewrite JSMapFacts.get_set_other by congruence.
          now rewrite andb_true_r. }
      rewrite HL. unfold grouped. simpl. rewrite String.eqb_refl. simpl.
      assert (Hb : bkt (key a) L = bkt (key a) l).
      { unfold L, bucket. rewrite filter_filter. apply filter_ext.
        intros b. destruct (String.eqb_spec (key b) (key a)) as [E|E].
        - rewrite E, Hhas. reflexivity.
        - now rewrite andb_false_r. }
      unfold advance. cbn [fst snd]. rewrite Hb. f_equal.
      rewrite <- (filter_map_comm key (fun k => negb (String.eqb k (key a)))).
      rewrite distinct_filter.
      apply flat_map_ext_on. intros k Hk. apply filter_In in Hk.
      destruct Hk as [_ Hk]. apply negb_true_iff in Hk.
      rewrite (String.eqb_sym (key a) k), Hk.
      replace (bkt k (filter (fun b => negb (String.eqb (key b) (key a))) L))
        with (bkt k L); [reflexivity|].
      unfold bucket. rewrite filter_filter. apply filter_ext.
      intros b. destruct (String.eqb_spec (key b) k) as [E|E].
      * rewrite E, Hk. reflexivity.
      * now rewrite andb_false_r.
Qed.

(** The loop computes the grouping. *)
Lemma fold_upsert_grouped l : fold_left ups l [] = grp l.
Proof.
  rewrite fold_upsert_from by constructor. simpl.
  rewrite filter_all; auto.
Qed.
End GroupFoldFacts.

Lemma fold_left_ext_eq {A B : Type} (f g : A -> B -> A) (l : list B) (a : A) :
  (forall x y, f x y = g x y) -> fold_left f l a = fold_left g l a.
Proof.
  intros H. revert a. induction l as [|b l IH]; simpl; intros a; [reflexivity|].
  now rewrite H, IH.
Qed.

Module ObjFacts.

Lemma obj_get_set (o : obj) (k c : string) (v : JSValue) :
  Obj.get (Obj.set o k v) c = if String.eqb k c then v else Obj.get o c.
Proof.
  induction o as [|[k0 v0] o IH]; simpl.
  - reflexivity.
  - destruct (String.eqb_spec k0 k) as [->|Hk]; simpl.
    + destruct (String.eqb k c); reflexivity.
    + rewrite IH. destruct (String.eqb_spec k c) as [<-|Hc].
      * destruct (String.eqb_spec k0 k); [contradiction|reflexivity].
      * reflexivity.
Qed.

Lemma obj_get_set_same (o : obj) (k : string) (v : JSValue) :
  Obj.get (Obj.set o k v) k = v.
Proof. now rewrite obj_get_set, String.eqb_refl. Qed.

Lemma obj_get_set_other (o : obj) (k c : string) (v : JSValue) :
  k <> c -> Obj.get (Obj.set o k v) c = Obj.get o c.
Proof.
  intros H. rewrite obj_get_set. now destruct (String.eqb_spec k c).
Qed.

End ObjFacts.

(* ================================================================== *)
(** * Lemmas on [Array_sort] *)
(* ================================================================== *)

Section SortFacts.
Context {A : Type}.
Variable cmp : A -> A -> number.

Lemma sort_insert_perm a l : Permutation (a :: l) (sort_insert cmp a l).
Proof.
  induction l as [|b l IH]; simpl; [reflexivity|].
  destruct (JSNumber.ltb0 (cmp a b)); [reflexivity|].
  rewrite perm_swap. now apply perm_skip.
Qed.

Lemma fold_insert_perm l : forall acc,
  Permutation (acc ++ l) (fold_left (fun s a => sort_insert cmp a s) l acc).
Proof.
  induction l as [|a l IH]; intros acc; simpl.
  - now rewrite app_nil_r.
  - rewrite <- IH. rewrite <- sort_insert_perm.
    symmetry. apply Permutation_middle.
Qed.

(** Sorting rearranges, it neither drops nor invents an element. *)
Lemma Array_sort_perm l : Permutation l (Array_sort cmp l).
Proof. apply (fold_insert_perm l []). Qed.

Lemma Array_sort_length l :
  List.length (Array_sort cmp l) = List.length l.
Proof. symmetry. apply Permutation_length, Array_sort_perm. Qed.

Lemma sort_insert_in_order a l :
  in_order cmp l -> in_order cmp (sort_insert cmp a l).
Proof.
  induction l as [|b l IH]; simpl; [trivial|].
  destruct (JSNumber.ltb0 (cmp a b)) eqn:Hab.
  - intros H. simpl. auto.
  - destruct l as [|c l].
    + intros _. simpl. auto.
    + intros [Hbc Hrest]. specialize (IH Hrest). simpl in IH |- *.
      destruct (JSNumber.ltb0 (cmp a c)) eqn:Hac; simpl; auto.
Qed.

Lemma fold_insert_in_order l : forall acc,
  in_order cmp acc ->
  in_order cmp (fold_left (fun s a => sort_insert cmp a s) l acc).
Proof.
  induction l as [|a l IH]; intros acc H; simpl; [assumption|].
  apply IH, sort_insert_in_order, H.
Qed.

(** After sorting no two neighbours are the wrong way round. *)
Lemma Array_sort_in_order l : in_order cmp (Array_sort cmp l).
Proof. apply fold_insert_in_order. exact I. Qed.

Lemma in_order_firstn n : forall l,
  in_order cmp l -> in_order cmp (firstn n l).
Proof.
  induction n as [|n IH]; intros l H; simpl; [exact I|].
  destruct l as [|a l]; [exact I|].
  destruct l as [|b l]; [destruct n; exact I|].
  destruct H as [Hab Hrest]. specialize (IH _ Hrest).
  destruct n as [|n]; simpl in *; auto.
Qed.

(** For a comparator that never puts each of two elements strictly before
    the other, a list in order has no inversion between neighbours. *)
Lemma in_order_sorted_by l :
  (forall a b, JSNumber.ltb0 (cmp a b) = true -> JSNumber.ltb0 (cmp b a) = false) ->
  in_order cmp l -> sorted_by cmp l.
Proof.
  intros Hanti. induction l as [|a l IH]; [trivial|].
  destruct l as [|b l]; [trivial|].
  intros [[Hab|Hba] Hrest]; split; auto.
Qed.
End SortFacts.

(* ================================================================== *)
(** * The sign of a difference of Numbers *)
(* ================================================================== *)

Lemma ltb0_round_aux (s : bool) (mx ex : Z) (lx : location) :
  JSNumber.ltb0 (binary_round_aux JSNumber.prec JSNumber.emax s mx ex lx) = true ->
  s = true.
Proof.
  unfold binary_round_aux.
  destruct (shr_fexp JSNumber.prec JSNumber.emax mx ex lx) as [mrs' e'].
  destruct (shr_fexp JSNumber.prec JSNumber.emax _ e' loc_Exact) as [mrs'' e''].
  destruct (shr_m mrs'') as [|m|m]; [| destruct (Z.leb _ _) |];
    destruct s; simpl; auto; discriminate.
Qed.

Lemma ltb0_normalize (z e : Z) :
  JSNumber.ltb0 (binary_normalize JSNumber.prec JSNumber.emax z e false) = true ->
  z < 0.
Proof.
  destruct z as [|m|m]; simpl; [discriminate| |lia].
  unfold binary_round. destruct (shl_align _ _ _) as [mz ez].
  intros H. apply ltb0_round_aux in H. discriminate.
Qed.

(** [x - y < 0] and [y - x < 0] never hold together. *)
Lemma sub_antisym (x y : number) :
  JSNumber.ltb0 (JSNumber.sub x y) = true ->
  JSNumber.ltb0 (JSNumber.sub y x) = false.
Proof.
  destruct x as [sx|sx| |sx mx ex].
  1-3: destruct y as [sy|sy| |sy my ey];
    repeat match goal with s : bool |- _ => destruct s end;
    simpl; intros H; (discriminate H || reflexivity).
  destruct y as [sy|sy| |sy my ey].
  1-3: repeat match goal with s : bool |- _ => destruct s end;
    simpl; intros H; (discriminate H || reflexivity).
  unfold JSNumber.sub, SFsub. intros H. apply ltb0_normalize in H.
  match goal with |- ?b = false => destruct b eqn:H' end; [|reflexivity].
  apply ltb0_normalize in H'. rewrite (Z.min_comm ey ex) in H'. lia.
Qed.


Lemma compare_dates_antisym (E : Engine) (a b : obj) :
  JSNumber.ltb0 (compare_dates E a b) = true ->
  JSNumber.ltb0 (compare_dates E b a) = false.
Proof. apply sub_antisym. Qed.

(* ================================================================== *)
(** * Checks of the built-ins *)
(* ================================================================== *)

Example number_of_text :
  map JSNumber.StringToNumber ["10"; " 1e1 "; "0xA"; ""; "-0"; "1e999"; "ten"]
  = [JSNumber.of_Z 10; JSNumber.of_Z 10; JSNumber.of_Z 10; JSNumber.pos_zero;
     S754_zero true; JSNumber.Infinity; JSNumber.NaN].
Proof. reflexivity. Qed.

Example text_of_number :
  map (fun s => JSNumber.to_string (JSNumber.StringToNumber s))
      ["15"; "0.1"; "1e21"; "123.456"; "1152921504606846976"; "5e-324";
       "0.0000001"; "-2.50"]
  = ["15"; "0.1"; "1e+21"; "123.456"; "1152921504606847000"; "5e-324";
     "1e-7"; "-2.5"].
Proof. vm_compute. reflexivity. Qed.

Example sum_of_tenths :
  JSNumber.to_string
    (JSNumber.add (JSNumber.StringToNumber "0.1") (JSNumber.StringToNumber "0.2"))
  = "0.30000000000000004".
Proof. vm_compute. reflexivity. Qed.

Example time_of_month (E : Engine) :
  JSDate.parse E "2024-01" = JSNumber.of_Z 1704067200000
  /\ JSDate.parse E "2024-02-29" = JSNumber.of_Z 1709164800000
  /\ JSDate.parse E "2024-13" = JSNumber.NaN.
Proof. repeat split. Qed.

Example keys_in_enumeration_order :
  Obj.keys [("b", VNull); ("10", VNull); ("a", VNull); ("2", VNull); ("01", VNull)]
  = ["2"; "10"; "b"; "a"; "01"].
Proof. reflexivity. Qed.

Example plus_concatenates :
  JS.plus (VStr "2024-01") (JS.num 10) = VStr "2024-0110"
  /\ JS.plus (JS.num 1) (JS.num 2) = JS.num 3
  /\ JS.plus VNull (VBool true) = JS.num 1.
Proof. repeat split. Qed.

Example sort_is_stable :
  Array_sort (fun a b => JSNumber.sub (JSNumber.of_Z (fst a)) (JSNumber.of_Z (fst b)))
             [(2, "a"); (1, "b"); (2, "c"); (1, "d")]
  = [(1, "b"); (1, "d"); (2, "a"); (2, "c")].
Proof. reflexivity. Qed.

(* ================================================================== *)
(** * Table mode *)
(* ================================================================== *)

(** C10. In table mode the header is the list of columns of the first row and
    the body holds the first 50 rows of the input, in their order and cell by
    cell over those columns; a row at index 50 or beyond is not shown. *)
Theorem table_mode_first_50_rows (E : Engine) (viz : VizSpec) (r0 : obj)
  (rest : list obj) :
  viz_type viz = table ->
  exists body,
    ChartOrTable E viz (r0 :: rest) = TableView (Obj.keys r0) body
    /\ body = map (table_cells (Obj.keys r0)) (firstn 50 (r0 :: rest))
    /\ List.length body = Nat.min 50 (List.length (r0 :: rest))
    /\ (forall i, (i < 50)%nat ->
          nth_error body i
          = option_map (table_cells (Obj.keys r0)) (nth_error (r0 :: rest) i))
    /\ (forall i, (50 <= i)%nat -> nth_error body i = None).
Proof.
  intros Ht. eexists. split; [|split; [reflexivity|]].
  - unfold ChartOrTable. rewrite Ht. reflexivity.
  - split; [|split].
    + now rewrite length_map, length_firstn.
    + intros i Hi. rewrite nth_error_map, nth_error_firstn.
      destruct (Nat.ltb_spec i 50); [reflexivity|lia].
    + intros i Hi. apply nth_error_None.
      rewrite length_map, length_firstn. lia.
Qed.

Lemma table_mode_first_50_rows_witness :
  exists body,
    ChartOrTable reference_engine Examples.table_viz
      (repeat [("sku", VStr "A")] 51)
    = TableView ["sku"] body
    /\ List.length body = 50%nat.
Proof.
  destruct (table_mode_first_50_rows reference_engine Examples.table_viz
              [("sku", VStr "A")] (repeat [("sku", VStr "A")] 50) eq_refl)
    as (body & Hview & _ & Hlen & _).
  exists body. split; [exact Hview|exact Hlen].
Defined.

(* ================================================================== *)
(** * Resolution of the y column *)
(* ================================================================== *)

Lemma truthy_nonempty (s : string) : s <> "" -> truthy s = true.
Proof.
  intros H. unfold truthy. now destruct (String.eqb_spec s "").
Qed.

Lemma fuzzy_y_iff (y k : string) :
  fuzzy_y y k = true <->
  includes (toLowerCase k) (toLowerCase y) = true
  \/ includes (toLowerCase y) (toLowerCase k) = true
  \/ strip_underscores (toLowerCase k) = strip_underscores (toLowerCase y).
Proof.
  unfold fuzzy_y. rewrite !orb_true_iff, String.eqb_eq. tauto.
Qed.

(** C7. When the y hint names no column of the sample row exactly, the
    resolver accepts a column that contains the hint, is contained in it, or
    equals it once underscores are removed, all without regard to case: as
    soon as some column passes that test, the resolved key is a column that
    passes it, the first one in column order. The hint net_sales resolves to
    the column total_net_sales. Column names and the hint are non-empty. *)
Theorem y_hint_fuzzy_match (viz : VizSpec) (y : string) (r0 : obj)
  (rest : list obj) :
  yKey_of viz = VStr y -> y <> "" -> Obj.has r0 y = false ->
  ~ In "" (Obj.keys r0) ->
  (forall k,
      In k (Obj.keys r0) ->
      includes (toLowerCase k) (toLowerCase y) = true
      \/ includes (toLowerCase y) (toLowerCase k) = true
      \/ strip_underscores (toLowerCase k) = strip_underscores (toLowerCase y) ->
      exists k' before after,
        actualYKey viz (r0 :: rest) = VStr k'
        /\ Obj.keys r0 = (before ++ k' :: after)%list
        /\ fuzzy_y y k' = true
        /\ forallb (fun c => negb (fuzzy_y y c)) before = true)
  /\ actualYKey (Examples.plain_viz "net_sales")
       [[("region", VStr "North"); ("total_net_sales", JS.num 100)]]
     = VStr "total_net_sales".
Proof.
  intros Hy Hne Hhas Hcols. split; [|reflexivity].
  intros k Hk Hmatch. apply fuzzy_y_iff in Hmatch.
  destruct (find_first_exists _ _ _ Hk Hmatch) as [k' Hfind].
  destruct (find_first_some _ _ _ Hfind) as (Hin & Hp & before & after & Hsplit & Hno).
  exists k', before, after. repeat split; try assumption.
  unfold actualYKey. rewrite Hy, (truthy_nonempty y Hne), Hhas. simpl.
  rewrite Hfind, truthy_nonempty; [reflexivity|].
  intros ->. contradiction.
Qed.

Lemma y_hint_fuzzy_match_witness :
  exists k' before after,
    actualYKey (Examples.plain_viz "Sales")
      [[("region", VStr "North"); ("total_sales", JS.num 7)]] = VStr k'
    /\ ["region"; "total_sales"] = (before ++ k' :: after)%list
    /\ fuzzy_y "Sales" k' = true
    /\ forallb (fun c => negb (fuzzy_y "Sales" c)) before = true.
Proof.
  refine (proj1 (y_hint_fuzzy_match (Examples.plain_viz "Sales") "Sales"
                   [("region", VStr "North"); ("total_sales", JS.num 7)] []
                   eq_refl _ eq_refl _) "total_sales" _ _).
  - discriminate.
  - simpl. intros [H|[H|[]]]; discriminate.
  - simpl. auto.
  - left. reflexivity.
Defined.

(* ================================================================== *)
(** * The y of a mapped point *)
(* ================================================================== *)

Lemma yNum_of_cases (yVal : JSValue) :
  yNum_of yVal =
  match yVal with
  | VNum n => VNum n
  | VStr s => if JSNumber.is_nan (JSNumber.StringToNumber s) then JS.num 0
              else VNum (JSNumber.StringToNumber s)
  | _ => JS.num 0
  end.
Proof.
  destruct yVal as [| |b|n|s]; try reflexivity.
  unfold yNum_of. simpl. unfold JS.isNaN. simpl.
  now destruct (JSNumber.is_nan (JSNumber.StringToNumber s)).
Qed.

Lemma yNum_of_number (yVal : JSValue) : exists n, yNum_of yVal = VNum n.
Proof.
  rewrite yNum_of_cases. destruct yVal as [| |b|n|s]; try (eexists; reflexivity).
  destruct (JSNumber.is_nan (JSNumber.StringToNumber s)); eexists; reflexivity.
Qed.

Lemma add_dimensions_keep (r : obj) (c : string) (dims : list string) :
  ~ In c dims ->
  forall result,
    Obj.get (fold_left (add_dimension r) dims result) c = Obj.get result c.
Proof.
  induction dims as [|dim dims IH]; simpl; intros Hc result; [reflexivity|].
  rewrite IH by tauto. unfold add_dimension.
  destruct (dim_column dim r) as [dimKey|]; [|reflexivity].
  destruct (truthy dimKey && negb (JS.is_undefined (Obj.get r dimKey)))%bool;
    [|reflexivity].
  apply ObjFacts.obj_get_set_other. intros ->. tauto.
Qed.

Lemma map_row_y (viz : VizSpec) (xKey yKey : JSValue) (r : obj) :
  ~ In "y" (groupBy_list viz) ->
  Obj.get (map_row viz xKey yKey r) "y" = yNum_of (Obj.get r (JS.ToString yKey)).
Proof.
  intros Hy. unfold map_row.
  destruct (yNum_of_number (Obj.get r (JS.ToString yKey))) as [n Hn].
  destruct (has_groupBy viz).
  - rewrite add_dimensions_keep by assumption. simpl. now rewrite Hn.
  - simpl. now rewrite Hn.
Qed.

Lemma add_dimensions_get (r : obj) (c : string) (dims : list string) :
  forall result,
    Obj.get (fold_left (add_dimension r) dims result) c
    = if existsb (String.eqb c) dims then
        match dim_column c r with
        | Some k =>
            if (truthy k && negb (JS.is_undefined (Obj.get r k)))%bool
            then Obj.get r k else Obj.get result c
        | None => Obj.get result c
        end
      else Obj.get result c.
Proof.
  induction dims as [|dim dims IH]; intros result; simpl; [reflexivity|].
  rewrite IH. clear IH.
  assert (Hstep : Obj.get (add_dimension r result dim) c
                  = if String.eqb c dim then
                      match dim_column c r with
                      | Some k =>
                          if (truthy k && negb (JS.is_undefined (Obj.get r k)))%bool
                          then Obj.get r k else Obj.get result c
                      | None => Obj.get result c
                      end
                    else Obj.get result c).
  { unfold add_dimension. destruct (String.eqb_spec c dim) as [->|Hc].
    - destruct (dim_column dim r) as [k|]; [|reflexivity].
      destruct (truthy k && negb (JS.is_undefined (Obj.get r k)))%bool;
        [apply ObjFacts.obj_get_set_same|reflexivity].
    - destruct (dim_column dim r) as [k|]; [|reflexivity].
      destruct (truthy k && negb (JS.is_undefined (Obj.get r k)))%bool;
        [|reflexivity].
      apply ObjFacts.obj_get_set_other. congruence. }
  rewrite Hstep.
  destruct (String.eqb c dim), (existsb (String.eqb c) dims); simpl;
    try reflexivity;
    destruct (dim_column c r) as [k|]; try reflexivity;
    destruct (truthy k && negb (JS.is_undefined (Obj.get r k)))%bool; reflexivity.
Qed.

(** A point carries, under the name of each groupBy dimension, the value the
    row has in the column of that dimension. *)
Lemma map_row_dimension (viz : VizSpec) (xKey yKey : JSValue) (r : obj)
  (dim k : string) :
  In dim (groupBy_list viz) ->
  dim_column dim r = Some k -> k <> "" -> Obj.get r k <> VUndefined ->
  Obj.get (map_row viz xKey yKey r) dim = Obj.get r k.
Proof.
  intros Hin Hcol Hk Hdef. unfold map_row.
  assert (Hg : has_groupBy viz = true).
  { unfold has_groupBy, groupBy_list in *.
    destruct (viz_groupBy viz) as [[|g gs]|]; [destruct Hin|reflexivity|destruct Hin]. }
  rewrite Hg, add_dimensions_get, Hcol, (truthy_nonempty k Hk).
  assert (Hex : existsb (String.eqb dim) (groupBy_list viz) = true).
  { apply existsb_exists. exists dim. split; [assumption|apply String.eqb_refl]. }
  rewrite Hex.
  destruct (Obj.get r k); try reflexivity. contradiction.
Qed.

Lemma keep_point_map_row (viz : VizSpec) (xKey yKey : JSValue) (r : obj) :
  ~ In "y" (groupBy_list viz) ->
  keep_point (map_row viz xKey yKey r)
  = negb (y_is_NaN (Obj.get r (JS.ToString yKey))).
Proof.
  intros Hy. unfold keep_point. rewrite map_row_y by assumption.
  rewrite yNum_of_cases.
  destruct (Obj.get r (JS.ToString yKey)) as [| |b|n|s]; try reflexivity.
  destruct (JSNumber.is_nan (JSNumber.StringToNumber s)) eqn:Hs; simpl.
  - reflexivity.
  - unfold JS.isNaN. simpl. now rewrite Hs.
Qed.

Lemma has_groupBy_false_list (viz : VizSpec) :
  has_groupBy viz = false -> groupBy_list viz = [].
Proof.
  unfold has_groupBy, groupBy_list.
  destruct (viz_groupBy viz) as [[|g gs]|]; [reflexivity|discriminate|reflexivity].
Qed.

(** Every point of the mapped rows carries a y that is a Number and not
    NaN. *)
Lemma mapped_y_not_nan (viz : VizSpec) (xKey yKey : JSValue) (rows : list obj) :
  ~ In "y" (groupBy_list viz) ->
  Forall (fun d => exists n, Obj.get d "y" = VNum n /\ JSNumber.is_nan n = false)
         (mapped viz xKey yKey rows).
Proof.
  intros Hy. apply Forall_forall. intros d Hd.
  unfold mapped in Hd. apply filter_In in Hd. destruct Hd as [Hd Hkeep].
  apply in_map_iff in Hd. destruct Hd as (r & <- & _).
  rewrite keep_point_map_row in Hkeep by assumption.
  rewrite map_row_y by assumption.
  rewrite yNum_of_cases.
  destruct (Obj.get r (JS.ToString yKey)) as [| |b|n|s]; simpl in Hkeep;
    try (eexists; split; reflexivity).
  - exists n. split; [reflexivity|]. now apply negb_true_iff.
  - destruct (JSNumber.is_nan (JSNumber.StringToNumber s)) eqn:Hs;
      eexists; (split; [reflexivity|]); [reflexivity|assumption].
Qed.

(** C4, as the code has it. Every point of the series comes from a row. A
    row whose y is a Number other than NaN is kept with that Number, and so
    is a row whose y is a string that reads as a Number other than NaN, with
    the Number read. A row whose y is absent or null is not dropped: it is
    kept with y = 0. A row whose y is the Number NaN is filtered out. The
    dimension names of groupBy are other than y. *)
Theorem y_coercion_keeps_rows (viz : VizSpec) (xKey yKey : JSValue)
  (rows : list obj) :
  ~ In "y" (groupBy_list viz) ->
  (forall d, In d (mapped viz xKey yKey rows) ->
             exists r, In r rows /\ d = map_row viz xKey yKey r)
  /\ forall r, In r rows ->
       let yVal := Obj.get r (JS.ToString yKey) in
       let d := map_row viz xKey yKey r in
       (forall n, yVal = VNum n -> JSNumber.is_nan n = false ->
          In d (mapped viz xKey yKey rows) /\ Obj.get d "y" = VNum n)
       /\ (forall s, yVal = VStr s ->
             JSNumber.is_nan (JSNumber.StringToNumber s) = false ->
             In d (mapped viz xKey yKey rows)
             /\ Obj.get d "y" = VNum (JSNumber.StringToNumber s))
       /\ (yVal = VNull \/ yVal = VUndefined ->
             In d (mapped viz xKey yKey rows) /\ Obj.get d "y" = JS.num 0)
       /\ (yVal = VNum JSNumber.NaN -> keep_point d = false).
Proof.
  intros Hy. split.
  - intros d Hd. unfold mapped in Hd. apply filter_In in Hd.
    destruct Hd as [Hd _]. apply in_map_iff in Hd.
    destruct Hd as (r & <- & Hr). now exists r.
  - intros r Hr yVal d.
    assert (Hkept : y_is_NaN yVal = false -> In d (mapped viz xKey yKey rows)).
    { intros Hn. unfold mapped. apply filter_In. split.
      - now apply in_map.
      - subst d yVal. rewrite keep_point_map_row by assumption. now rewrite Hn. }
    assert (Hval : Obj.get d "y" = yNum_of yVal)
      by (now apply map_row_y).
    rewrite yNum_of_cases in Hval.
    split; [|split; [|split]].
    + intros n Hn Hnan. split.
      * apply Hkept. now rewrite Hn.
      * now rewrite Hval, Hn.
    + intros s Hs Hnan. split.
      * apply Hkept. now rewrite Hs.
      * now rewrite Hval, Hs, Hnan.
    + intros H. split.
      * apply Hkept. now destruct H as [-> | ->].
      * rewrite Hval. now destruct H as [-> | ->].
    + intros H. subst d. rewrite keep_point_map_row by assumption.
      fold yVal. now rewrite H.
Qed.

Lemma y_coercion_keeps_rows_witness :
  In [("x", VStr "South"); ("y", JS.num 0)]
     (mapped (Examples.plain_viz "sales") (VStr "region") (VStr "sales")
        [[("region", VStr "North"); ("sales", VStr "12")];
         [("region", VStr "South"); ("sales", VNull)]]).
Proof.
  refine (proj1 (proj1 (proj2 (proj2 (proj2
            (y_coercion_keeps_rows (Examples.plain_viz "sales") (VStr "region")
               (VStr "sales")
               [[("region", VStr "North"); ("sales", VStr "12")];
                [("region", VStr "South"); ("sales", VNull)]]
               (fun H : False => H))
            [("region", VStr "South"); ("sales", VNull)] _))) _)).
  - right. left. reflexivity.
  - left. reflexivity.
Defined.

(** C4 as the specification words it fails: a row whose y is null and a row
    that has no y at all both stay in the series, with 0 put in place of
    their y. *)
Lemma dropped_points_counterexample :
  ChartOrTable_data reference_engine (Examples.plain_viz "sales")
    [[("region", VStr "North"); ("sales", VNull)];
     [("region", VStr "South")]]
  = [[("x", VStr "North"); ("y", JS.num 0)];
     [("x", VStr "South"); ("y", JS.num 0)]].
Proof. reflexivity. Qed.

(* ================================================================== *)
(** * Which numbers reach the chart *)
(* ================================================================== *)

(** C5, as the code has it. In a chart without groupBy every point has a y
    that is a Number and is not NaN; nothing checks that it is finite. *)
Theorem flat_series_y_not_nan (E : Engine) (viz : VizSpec) (rows : list obj) :
  has_groupBy viz = false ->
  Forall (fun d => exists n, Obj.get d "y" = VNum n /\ JSNumber.is_nan n = false)
         (ChartOrTable_data E viz rows).
Proof.
  intros Hg. unfold ChartOrTable_data. rewrite Hg.
  destruct (is_nonempty rows && JS.ToBoolean (actualYKey viz rows))%bool;
    [|constructor].
  apply mapped_y_not_nan. rewrite has_groupBy_false_list by assumption.
  intros [].
Qed.

Lemma flat_series_y_not_nan_witness :
  Forall (fun d => exists n, Obj.get d "y" = VNum n /\ JSNumber.is_nan n = false)
         (ChartOrTable_data reference_engine (Examples.plain_viz "sales")
            [[("region", VStr "North"); ("sales", VStr "12")]]).
Proof.
  apply (flat_series_y_not_nan reference_engine (Examples.plain_viz "sales")).
  reflexivity.
Defined.

(** C5 as the specification words it fails: the text Infinity is a number for
    the coercion and is charted as Infinity, and in a pivot the sum of
    Infinity and -Infinity is charted as NaN. *)
Lemma finite_y_counterexample :
  ChartOrTable_data reference_engine (Examples.plain_viz "sales")
    [[("region", VStr "North"); ("sales", VStr "Infinity")]]
  = [[("x", VStr "North"); ("y", VNum JSNumber.Infinity)]]
  /\ JSNumber.is_finite JSNumber.Infinity = false
  /\ ChartOrTable_data reference_engine Examples.monthly_viz
       [Examples.sales_row "2024-01" "North" (VStr "Infinity");
        Examples.sales_row "2024-01" "North" (VStr "-Infinity")]
     = [[("x", VStr "2024-01"); ("North", VNum JSNumber.NaN)]].
Proof. repeat split. Qed.

(* ================================================================== *)
(** * The empty result *)
(* ================================================================== *)

Lemma actualYKey_falsy (viz : VizSpec) (rows : list obj) :
  JS.ToBoolean (yKey_of viz) = false -> actualYKey viz rows = yKey_of viz.
Proof.
  unfold actualYKey. destruct rows as [|r0 rest]; [reflexivity|].
  destruct (yKey_of viz) as [| |b|n|y]; try reflexivity.
  simpl. intros ->. reflexivity.
Qed.

(** C8, as the code has it. When the row set is empty, when the chart names
    no y measure, or when no point is left, [ChartOrTable] returns, without
    failing, the notice that no valid data point was found, and the notice
    lists the column names of the first row, or none when there is no
    row. *)
Theorem empty_series_diagnostic (E : Engine) (viz : VizSpec) (rows : list obj) :
  viz_type viz <> table ->
  rows = [] \/ JS.ToBoolean (yKey_of viz) = false
  \/ ChartOrTable_data E viz rows = [] ->
  ChartOrTable_data E viz rows = []
  /\ ChartOrTable E viz rows = NoValidData (no_data_message rows)
  /\ (rows = [] -> no_data_message rows
                   = "No valid data points found. Available keys: none")
  /\ (forall r0 rest, rows = r0 :: rest ->
        no_data_message rows
        = "No valid data points found. Available keys: "
          ++ join ", " (Obj.keys r0)).
Proof.
  intros Ht Hcase.
  assert (Hdata : ChartOrTable_data E viz rows = []).
  { destruct Hcase as [-> | [Hy | H]]; [reflexivity| |exact H].
    unfold ChartOrTable_data.
    rewrite actualYKey_falsy, Hy, andb_false_r by assumption. reflexivity. }
  split; [exact Hdata|]. split; [|split].
  - unfold ChartOrTable. rewrite Hdata.
    destruct (viz_type viz); [reflexivity|reflexivity|contradiction].
  - now intros ->.
  - now intros r0 rest ->.
Qed.

Lemma empty_series_diagnostic_witness :
  ChartOrTable reference_engine
    {| viz_type := bar; viz_x := Some "region"; viz_y := None;
       viz_groupBy := None; viz_aggregation := None |}
    Examples.two_regions
  = NoValidData "No valid data points found. Available keys: region, sales".
Proof.
  refine (proj1 (proj2 (empty_series_diagnostic reference_engine _
                          Examples.two_regions _ _))).
  - discriminate.
  - right. left. reflexivity.
Defined.

(** C8 as the specification words it fails: the hint profit matches no
    column, the key stays unresolved, and the chart is drawn all the same,
    with 0 for every y. *)
Lemma unresolved_y_counterexample :
  Obj.has [("region", VStr "North"); ("sales", JS.num 10)] "profit" = false
  /\ actualYKey (Examples.plain_viz "profit")
       [[("region", VStr "North"); ("sales", JS.num 10)]] = VStr "profit"
  /\ ChartOrTable reference_engine (Examples.plain_viz "profit")
       [[("region", VStr "North"); ("sales", JS.num 10)]]
     = ChartView bar [[("x", VStr "North"); ("y", JS.num 0)]] [] "Top Results"
         [{| label := "North"; value := JS.num 0 |}].
Proof. repeat split. Qed.

(* ================================================================== *)
(** * The sort by date *)
(* ================================================================== *)

(** Building a date from a primitive never throws, so the [catch] of the
    comparator is dead code: the result is always the difference of the two
    times, NaN as soon as one of the dates is unreadable. *)
Lemma compare_dates_is_difference (E : Engine) (a b : obj) :
  compare_dates E a b = JSNumber.sub (time_of E a) (time_of E b).
Proof. reflexivity. Qed.

Lemma compare_dates_unreadable (E : Engine) (a b : obj) :
  JSNumber.is_nan (time_of E a) = true \/ JSNumber.is_nan (time_of E b) = true ->
  compare_dates E a b = JSNumber.NaN
  /\ JSNumber.ltb0 (compare_dates E a b) = false.
Proof.
  rewrite compare_dates_is_difference. unfold JSNumber.sub.
  intros [H|H].
  - destruct (time_of E a); try discriminate. simpl. auto.
  - destruct (time_of E b); try discriminate.
    destruct (time_of E a); simpl; auto.
Qed.

(** C9, on the code. The week labels 2024-20 and 2024-15 have the shape of a
    date but no such month, so neither can be read as one. The comparator
    then yields NaN instead of comparing the texts; the sort takes NaN for
    equal and leaves the two rows as they came, 2024-20 first, on every
    engine, where the comparison of the texts orders 2024-15 first. *)
Theorem unreadable_dates_keep_input_order :
  (forall E,
     compare_dates E [("x", VStr "2024-15")] [("x", VStr "2024-20")]
     = JSNumber.NaN)
  /\ (forall E,
        map x_text (ChartOrTable_data E Examples.monthly_viz Examples.weekly_rows)
        = ["2024-20"; "2024-15"])
  /\ compare_x reference_engine [("x", VStr "2024-15")] [("x", VStr "2024-20")]
     = JSNumber.of_Z (-1)
  /\ map x_text (Array_sort (compare_x reference_engine)
                   [[("x", VStr "2024-20")]; [("x", VStr "2024-15")]])
     = ["2024-15"; "2024-20"].
Proof. repeat split. Qed.

(* ================================================================== *)
(** * The two call sites *)
(* ================================================================== *)

(** The series of the full-screen chart is the series of the inline chart. *)
Lemma FullscreenChart_data_eq (E : Engine) (viz : VizSpec) (rows : list obj) :
  FullscreenChart_data E viz rows = ChartOrTable_data E viz rows.
Proof.
  unfold FullscreenChart_data, ChartOrTable_data.
  destruct (is_nonempty rows && JS.ToBoolean (actualYKey viz rows))%bool;
    [|reflexivity].
  destruct (has_groupBy viz); [|reflexivity].
  destruct (negb (JS.ToBoolean (pickXKey viz rows))
            || negb (opt_truthy (viz_x viz)))%bool eqn:Hx; [reflexivity|].
  apply orb_false_iff in Hx. destruct Hx as [Hx _].
  apply negb_false_iff in Hx. rewrite Hx. reflexivity.
Qed.

(** C6, on the code. Both components resolve the same keys and chart the same
    series, but their lists of top results differ by more than their length:
    for two regions with sales 1 and 2 the inline list ranks South before
    North, the full-screen list shows the rows as they came. *)
Theorem top_lists_differ :
  let viz := Examples.plain_viz "sales" in
  let rows := Examples.two_regions in
  let xKey := pickXKey viz rows in
  let yKey := actualYKey viz rows in
  ChartOrTable_TopList viz rows xKey yKey
  = [{| label := "South"; value := JS.num 2 |};
     {| label := "North"; value := JS.num 1 |}]
  /\ FullscreenChart_TopList viz rows xKey yKey
     = [{| label := "North"; value := JS.num 1 |};
        {| label := "South"; value := JS.num 2 |}]
  /\ FullscreenChart_data reference_engine viz rows
     = ChartOrTable_data reference_engine viz rows.
Proof. repeat split. Qed.

(* ================================================================== *)
(** * The entries of a grouping, key by key *)
(* ================================================================== *)

Lemma flat_map_option_Forall2 {K V : Type} (f : K -> option V) (ks : list K) :
  (forall k, In k ks -> f k <> None) ->
  Forall2 (fun k e => fst e = k /\ f k = Some (snd e)) ks
          (flat_map (fun k => match f k with
                              | Some v => [(k, v)]
                              | None => []
                              end) ks).
Proof.
  induction ks as [|k ks IH]; simpl; intros H; [constructor|].
  destruct (f k) as [v|] eqn:Hk.
  - simpl. constructor; [now split|]. apply IH. auto.
  - exfalso. apply (H k); auto.
Qed.

Section GroupedFacts.
Context {A V : Type}.
Variable key : A -> string.
Variable init : A -> V.
Variable upd : V -> A -> V.

Lemma bucket_nonempty (k : string) (l : list A) :
  In k (map key l) -> bucket key k l <> [].
Proof.
  intros Hk. apply in_map_iff in Hk. destruct Hk as (a & Ha & Hin).
  assert (Hb : In a (bucket key k l)).
  { apply filter_In. split; [assumption|]. now apply String.eqb_eq. }
  intros E. rewrite E in Hb. destruct Hb.
Qed.

Lemma bucket_head (k : string) (l : list A) (a : A) (b : list A) :
  bucket key k l = a :: b -> key a = k.
Proof.
  intros E. assert (Hin : In a (bucket key k l)) by (rewrite E; now left).
  apply filter_In in Hin. now apply String.eqb_eq.
Qed.

(** One entry per distinct key, in the order the keys first occur; the entry
    of a key is what its bucket folds to. *)
Lemma grouped_entries (l : list A) :
  Forall2 (fun k e =>
             fst e = k
             /\ exists a b, bucket key k l = a :: b
                            /\ key a = k
                            /\ snd e = fold_left upd b (init a))
          (distinct (map key l)) (grouped key init upd l).
Proof.
  unfold grouped.
  eapply Forall2_impl;
    [|apply (flat_map_option_Forall2
               (fun k => merged init upd (bucket key k l)))].
  - intros k e [Hk Hm]. split; [assumption|].
    destruct (bucket key k l) as [|a b] eqn:Hb; [discriminate|].
    exists a, b. split; [reflexivity|]. split; [now apply (bucket_head k l a b)|].
    simpl in Hm. now injection Hm as <-.
  - intros k Hk. apply (proj1 (distinct_in _ _)) in Hk.
    pose proof (bucket_nonempty k l Hk) as Hne.
    destruct (bucket key k l); [contradiction|discriminate].
Qed.
End GroupedFacts.

Lemma Forall2_map_r {A B C : Type} (R : A -> C -> Prop) (f : B -> C)
  (l : list A) (l' : list B) :
  Forall2 (fun a b => R a (f b)) l l' -> Forall2 R l (map f l').
Proof. induction 1; simpl; constructor; auto. Qed.

Lemma Forall2_in_r {A B : Type} (R : A -> B -> Prop) (l : list A) (l' : list B)
  (b : B) :
  Forall2 R l l' -> In b l' -> exists a, In a l /\ R a b.
Proof.
  induction 1 as [|a0 b0 l l' H0 H IH]; simpl; [intros []|].
  intros [<-|Hin].
  - exists a0. auto.
  - destruct (IH Hin) as (a & Ha & HR). exists a. auto.
Qed.

Lemma in_firstn {A : Type} (n : nat) : forall (l : list A) (a : A),
  In a (firstn n l) -> In a l.
Proof.
  induction n as [|n IH]; intros [|b l] a; simpl; try tauto.
  intros [->|H]; auto.
Qed.

Lemma bucket_incl {A : Type} (key : A -> string) (k : string) (l : list A) (a : A) :
  In a (bucket key k l) -> In a l.
Proof. unfold bucket. intros H. now apply filter_In in H. Qed.

(* ================================================================== *)
(** * Plain sums *)
(* ================================================================== *)

Lemma or_zero_ordinary (n : number) : ordinary n = true -> or_zero n = n.
Proof. destruct n as [[]|[]| |]; intros H; try discriminate H; reflexivity. Qed.

Lemma add_or_zero_r (acc y : number) :
  ordinary acc = true -> ordinary (JSNumber.add acc y) = true ->
  JSNumber.add acc (or_zero y) = JSNumber.add acc y.
Proof.
  intros Ha Hs. destruct y as [sy|sy| |sy my ey]; try reflexivity.
  - destruct acc as [[]|sa| |sa ma ea], sy; try discriminate Ha; reflexivity.
  - destruct acc as [sa|sa| |sa ma ea]; discriminate Hs.
Qed.

(** [(a || 0) + (y || 0)] is the sum of the two Numbers when [a] and the sum
    are ordinary. *)
Lemma sum_or_zero_numbers (a y : number) :
  ordinary a = true -> ordinary (JSNumber.add a y) = true ->
  sum_or_zero (VNum a) (VNum y) = VNum (JSNumber.add a y).
Proof.
  intros Ha Hs.
  assert (Hl : JS.or (VNum a) (JS.num 0) = VNum (or_zero a)).
  { unfold JS.or, or_zero. simpl. now destruct (JSNumber.truthy a). }
  assert (Hr : JS.or (VNum y) (JS.num 0) = VNum (or_zero y)).
  { unfold JS.or, or_zero. simpl. now destruct (JSNumber.truthy y). }
  unfold sum_or_zero. rewrite Hl, Hr. simpl.
  now rewrite (or_zero_ordinary a Ha), add_or_zero_r.
Qed.

Lemma sum_or_zero_first (y : number) :
  ordinary (JSNumber.add JSNumber.pos_zero y) = true ->
  sum_or_zero VUndefined (VNum y) = VNum (JSNumber.add JSNumber.pos_zero y).
Proof.
  intros Hs.
  assert (Hr : JS.or (VNum y) (JS.num 0) = VNum (or_zero y)).
  { unfold JS.or, or_zero. simpl. now destruct (JSNumber.truthy y). }
  unfold sum_or_zero. rewrite Hr.
  change (JS.or VUndefined (JS.num 0)) with (VNum JSNumber.pos_zero).
  change (JS.plus (VNum JSNumber.pos_zero) (VNum (or_zero y)))
    with (VNum (JSNumber.add JSNumber.pos_zero (or_zero y))).
  now rewrite add_or_zero_r.
Qed.

Lemma fold_sum_plain (ys : list number) : forall acc,
  ordinary acc = true ->
  forallb ordinary (running_sums acc ys) = true ->
  fold_left sum_or_zero (map VNum ys) (VNum acc)
  = VNum (fold_left JSNumber.add ys acc).
Proof.
  induction ys as [|y ys IH]; intros acc Ha Hs; [reflexivity|].
  simpl in Hs. apply andb_true_iff in Hs. destruct Hs as [Hy Hs].
  simpl. rewrite sum_or_zero_numbers by assumption. now apply IH.
Qed.

Lemma fold_sum_plain_start (ys : list number) :
  ys <> [] ->
  forallb ordinary (running_sums JSNumber.pos_zero ys) = true ->
  fold_left sum_or_zero (map VNum ys) VUndefined = VNum (sum_of ys).
Proof.
  destruct ys as [|y ys]; [congruence|]. intros _ Hs.
  simpl in Hs. apply andb_true_iff in Hs. destruct Hs as [Hy Hs].
  simpl. rewrite sum_or_zero_first by assumption.
  unfold sum_of. simpl. now apply fold_sum_plain.
Qed.





Lemma numbers_list (vs : list JSValue) :
  Forall is_number vs -> exists ns, vs = map VNum ns.
Proof.
  induction 1 as [|v vs [n ->] _ (ns & ->)].
  - now exists [].
  - now exists (n :: ns).
Qed.

(* ================================================================== *)
(** * Aggregation when no x axis is given *)
(* ================================================================== *)

Lemma group_step_upsert (viz : VizSpec) (m : JSMap.t obj) (d : obj) :
  group_step viz m d = upsert (groupKey_of viz) (group_init viz) group_upd m d.
Proof.
  unfold group_step, upsert. destruct (JSMap.get m (groupKey_of viz d)); reflexivity.
Qed.

Lemma group_upd_y (later : list obj) : forall e,
  Obj.get (fold_left group_upd later e) "y"
  = fold_left sum_or_zero (map (fun d => Obj.get d "y") later) (Obj.get e "y").
Proof.
  induction later as [|d later IH]; intros e; simpl; [reflexivity|].
  rewrite IH. f_equal. unfold group_upd. now rewrite ObjFacts.obj_get_set_same.
Qed.

Lemma group_upd_other (c : string) (later : list obj) : c <> "y" ->
  forall e, Obj.get (fold_left group_upd later e) c = Obj.get e c.
Proof.
  intros Hc. induction later as [|d later IH]; intros e; simpl; [reflexivity|].
  rewrite IH. unfold group_upd. apply ObjFacts.obj_get_set_other. congruence.
Qed.

Lemma bucket_ext {A : Type} (key key' : A -> string) (k : string) (l : list A) :
  (forall a, key a = key' a) -> bucket key k l = bucket key' k l.
Proof.
  intros H. unfold bucket. apply filter_ext. intros a. now rewrite H.
Qed.

(** C2. With groupBy and without a usable x, the points are merged by the
    key that joins with a bar, in the order of groupBy, the text of each
    dimension value (Unknown when it is missing): the result has one point
    per key, in the order the keys first occur. The point of a key has for x
    the value of the first groupBy dimension in the first row of the key (the
    key itself when that value is missing), for y what [(a || 0) + (b || 0)]
    accumulates from the y of that first row over the later rows of the key,
    and elsewhere the properties of the first row. The y is the plain sum of
    the Numbers, added in row order, whenever the first y and every partial
    sum is a Number other than NaN and -0; and the y of the rows are Numbers
    when no groupBy dimension is named y. A point holds, under the name of a
    groupBy dimension, the value of the row in the column of that dimension.
    The three rows North 10, North 5, South 3 give North 15 then South 3;
    grouped by region and category, the rows North Food 10, North Toys 3,
    North Food 5 give the points of North|Food, y 15, and North|Toys, y 3,
    both with x North. Names that collide with members of Object.prototype
    are left out. *)
Theorem aggregation_without_x (E : Engine) (viz : VizSpec) (rows : list obj)
  (g0 : string) (gs : list string) :
  own_names viz rows = true ->
  is_nonempty rows = true ->
  JS.ToBoolean (actualYKey viz rows) = true ->
  viz_groupBy viz = Some (g0 :: gs) ->
  JS.ToBoolean (pickXKey viz rows) = false \/ opt_truthy (viz_x viz) = false ->
  let points := mapped viz (pickXKey viz rows) (actualYKey viz rows) rows in
  let key := fun d : obj =>
               join "|" (map (fun dim =>
                                JS.ToString (JS.nullish (Obj.get d dim)
                                                        (VStr "Unknown")))
                             (g0 :: gs)) in
  Forall2
    (fun k point =>
       exists d0 later,
         bucket key k points = d0 :: later
         /\ key d0 = k
         /\ Obj.get point "x" = JS.nullish (Obj.get d0 g0) (VStr k)
         /\ Obj.get point "y"
            = fold_left (fun a b => JS.plus (JS.or a (JS.num 0))
                                            (JS.or b (JS.num 0)))
                        (map (fun d => Obj.get d "y") later) (Obj.get d0 "y")
         /\ (~ In "y" (g0 :: gs) ->
             exists y0 ys,
               Obj.get d0 "y" = VNum y0
               /\ map (fun d => Obj.get d "y") later = map VNum ys)
         /\ (forall y0 ys,
               Obj.get d0 "y" = VNum y0 ->
               map (fun d => Obj.get d "y") later = map VNum ys ->
               ordinary y0 = true ->
               forallb ordinary (running_sums y0 ys) = true ->
               Obj.get point "y" = VNum (fold_left JSNumber.add ys y0))
         /\ forall c, c <> "x" -> c <> "y" -> Obj.get point c = Obj.get d0 c)
    (distinct (map key points))
    (ChartOrTable_data E viz rows)
  /\ (forall r dim k,
        In dim (g0 :: gs) ->
        dim_column dim r = Some k -> k <> "" -> Obj.get r k <> VUndefined ->
        Obj.get (map_row viz (pickXKey viz rows) (actualYKey viz rows) r) dim
        = Obj.get r k)
  /\ ChartOrTable_data E Examples.region_viz Examples.region_rows
     = [[("x", VStr "North"); ("y", JS.num 15); ("region", VStr "North")];
        [("x", VStr "South"); ("y", JS.num 3); ("region", VStr "South")]]
  /\ ChartOrTable_data E Examples.category_viz Examples.category_rows
     = [[("x", VStr "North"); ("y", JS.num 15); ("region", VStr "North");
         ("category", VStr "Food")];
        [("x", VStr "North"); ("y", JS.num 3); ("region", VStr "North");
         ("category", VStr "Toys")]].
Proof.
  intros _ Hrows Hy Hgb Hx points key.
  assert (Hg : has_groupBy viz = true) by (unfold has_groupBy; now rewrite Hgb).
  assert (Hdims : groupBy_list viz = g0 :: gs)
    by (unfold groupBy_list; now rewrite Hgb).
  assert (Hkey : forall d, groupKey_of viz d = key d)
    by (intros d; unfold groupKey_of; now rewrite Hdims).
  split; [|split; [|split; reflexivity]].
  2:{ intros r dim k Hdim. apply map_row_dimension. now rewrite Hdims. }
  assert (Hbranch : (negb (JS.ToBoolean (pickXKey viz rows))
                     || negb (opt_truthy (viz_x viz)))%bool = true).
  { destruct Hx as [-> | ->]; [reflexivity|apply orb_true_r]. }
  unfold ChartOrTable_data. rewrite Hrows, Hy, Hg, Hbranch. simpl.
  fold points.
  rewrite (fold_left_ext_eq (group_step viz)
             (upsert (groupKey_of viz) (group_init viz) group_upd)
             points [] (group_step_upsert viz)).
  rewrite fold_upsert_grouped. unfold JSMap.values.
  rewrite <- (map_ext _ _ Hkey).
  apply Forall2_map_r.
  eapply Forall2_impl; [|apply grouped_entries].
  intros k [k' point] (Hk & d0 & later & Hb & Hkd & Hfold).
  simpl in Hk, Hfold. subst k'. exists d0, later.
  split; [now rewrite <- (bucket_ext _ _ k points Hkey)|].
  split; [now rewrite <- Hkey|].
  assert (Hpy : Obj.get point "y"
                = fold_left sum_or_zero (map (fun d => Obj.get d "y") later)
                            (Obj.get d0 "y")).
  { rewrite Hfold, group_upd_y. f_equal.
    unfold group_init. apply ObjFacts.obj_get_set_other. discriminate. }
  simpl. split; [|split; [exact Hpy|split; [|split]]].
  - rewrite Hfold, group_upd_other by discriminate.
    unfold group_init, first_groupBy_value.
    rewrite ObjFacts.obj_get_set_same, Hdims. now rewrite Hkd.
  - intros Hno.
    assert (Hno' : ~ In "y" (groupBy_list viz)) by (rewrite Hdims; exact Hno).
    pose proof (mapped_y_not_nan viz (pickXKey viz rows) (actualYKey viz rows)
                  rows Hno') as Hnum.
    fold points in Hnum. rewrite Forall_forall in Hnum.
    assert (Hin : forall p, In p (d0 :: later) -> is_number (Obj.get p "y")).
    { intros p Hp. rewrite <- Hb in Hp. apply bucket_incl in Hp.
      destruct (Hnum p Hp) as (n & Hn & _). now exists n. }
    destruct (Hin d0 (or_introl eq_refl)) as [y0 Hy0].
    destruct (numbers_list (map (fun d => Obj.get d "y") later)) as [ys Hys].
    { apply Forall_forall. intros v Hv. apply in_map_iff in Hv.
      destruct Hv as (p & <- & Hp). apply Hin. now right. }
    now exists y0, ys.
  - intros y0 ys Hy0 Hys Ho Hs. rewrite Hpy, Hy0, Hys.
    now apply fold_sum_plain.
  - intros c Hcx Hcy. rewrite Hfold, group_upd_other by assumption.
    unfold group_init. apply ObjFacts.obj_get_set_other. congruence.
Qed.

Lemma aggregation_without_x_witness :
  Forall2
    (fun k point =>
       exists d0,
         Obj.get point "x" = JS.nullish (Obj.get d0 "region") (VStr k)
         /\ Obj.get point "category" = Obj.get d0 "category")
    ["North|Food"; "North|Toys"]
    (ChartOrTable_data reference_engine Examples.category_viz
       Examples.category_rows).
Proof.
  eapply Forall2_impl;
    [|exact (proj1 (aggregation_without_x reference_engine Examples.category_viz
                      Examples.category_rows "region" ["category"]
                      eq_refl eq_refl eq_refl eq_refl (or_intror eq_refl)))].
  intros k point (d0 & later & _ & _ & Hx & _ & _ & _ & Hc).
  exists d0. split; [exact Hx|]. apply Hc; discriminate.
Defined.

(* ================================================================== *)
(** * The pivot *)
(* ================================================================== *)

Lemma pivot_step_upsert (viz : VizSpec) (m : JSMap.t obj) (d : obj) :
  pivot_step viz m d = upsert x_text (pivot_init viz) (pivot_upd viz) m d.
Proof.
  unfold pivot_step, upsert, JSMap.has. fold (x_text d).
  destruct (JSMap.get m (x_text d)) eqn:H; simpl.
  - rewrite H. reflexivity.
  - rewrite JSMapFacts.get_set_same, JSMapFacts.set_set. reflexivity.
Qed.

Lemma pivot_cell_get (d xEntry : obj) (dim c : string) :
  Obj.get (pivot_cell d xEntry dim) c
  = fold_left sum_or_zero
      (if (negb (JS.is_undefined (Obj.get d dim))
           && String.eqb (JS.ToString (Obj.get d dim)) c)%bool
       then [Obj.get d "y"] else [])
      (Obj.get xEntry c).
Proof.
  unfold pivot_cell. destruct (JS.is_undefined (Obj.get d dim)); simpl;
    [reflexivity|].
  rewrite ObjFacts.obj_get_set.
  destruct (String.eqb_spec (JS.ToString (Obj.get d dim)) c) as [->|]; reflexivity.
Qed.

Lemma pivot_upd_get (d : obj) (c : string) (dims : list string) :
  forall xEntry,
    Obj.get (fold_left (pivot_cell d) dims xEntry) c
    = fold_left sum_or_zero (contributions dims c [d]) (Obj.get xEntry c).
Proof.
  unfold contributions. simpl. rewrite app_nil_r.
  induction dims as [|dim dims IH]; intros xEntry; simpl; [reflexivity|].
  rewrite IH, fold_left_app, pivot_cell_get. reflexivity.
Qed.

Lemma contributions_cons (dims : list string) (c : string) (d : obj)
  (points : list obj) :
  contributions dims c (d :: points)
  = (contributions dims c [d] ++ contributions dims c points)%list.
Proof. unfold contributions. simpl. now rewrite app_nil_r. Qed.

Lemma pivot_bucket_get (viz : VizSpec) (c : string) (points : list obj) :
  forall xEntry,
    Obj.get (fold_left (pivot_upd viz) points xEntry) c
    = fold_left sum_or_zero (contributions (groupBy_list viz) c points)
                (Obj.get xEntry c).
Proof.
  induction points as [|d points IH]; intros xEntry; [reflexivity|].
  change (fold_left (pivot_upd viz) (d :: points) xEntry)
    with (fold_left (pivot_upd viz) points (pivot_upd viz xEntry d)).
  rewrite IH, contributions_cons, fold_left_app. f_equal.
  apply pivot_upd_get.
Qed.

Lemma contributions_from_points (dims : list string) (c : string)
  (points : list obj) (v : JSValue) :
  In v (contributions dims c points) ->
  exists d, In d points /\ v = Obj.get d "y".
Proof.
  unfold contributions. intros H. apply in_flat_map in H.
  destruct H as (d & Hd & H). apply in_flat_map in H.
  destruct H as (dim & _ & H). exists d. split; [assumption|].
  destruct (negb (JS.is_undefined (Obj.get d dim))
            && String.eqb (JS.ToString (Obj.get d dim)) c)%bool;
    [|destruct H].
  destruct H as [<-|[]]. reflexivity.
Qed.

Lemma Forall2_cons_inv_head {A B : Type} {R : A -> B -> Prop} {a : A} {b : B}
  {l : list A} {l' : list B} :
  Forall2 R (a :: l) (b :: l') -> R a b.
Proof. intros H. now inversion H. Qed.

(** C1. With groupBy and a usable x the series is a pivot. Before the sort it
    has one row per distinct text of an x value, in the order those first
    occur. In the row of an x, the property named c holds what
    [(a || 0) + (b || 0)] accumulates, in row order, from the y of every
    point of that x that has a groupBy dimension whose value reads c: the
    property x starts from the text of the x value and the others from
    nothing, so a column no point contributes to is absent, not zero; the
    contributions are Numbers when no groupBy dimension is named y, and a
    column whose contributions are Numbers holds their plain sum, added in
    row order, whenever no partial sum is NaN or -0. This is stated of the
    names c that are not members of Object.prototype. The chart shows these
    rows sorted: none is lost or added; on a temporal axis where the x of
    every row reads as a date, no row is followed by one whose date is
    earlier; on another axis no two neighbours are the wrong way round for
    the collation of the engine. The three monthly rows give the rows for
    2024-01 (North 10, South 20) and 2024-02 (North 5), in that order, on
    every engine and also when the rows arrive in the reverse order; two rows
    of 10 and 5 for North in 2024-01 give North 15. A point holds, under the
    name of a groupBy dimension, the value of the row in the column of that
    dimension. *)
Theorem pivot_series (E : Engine) (viz : VizSpec) (rows : list obj) :
  own_names viz rows = true ->
  is_nonempty rows = true ->
  JS.ToBoolean (actualYKey viz rows) = true ->
  has_groupBy viz = true ->
  JS.ToBoolean (pickXKey viz rows) = true ->
  opt_truthy (viz_x viz) = true ->
  let points := mapped viz (pickXKey viz rows) (actualYKey viz rows) rows in
  let pivoted := JSMap.values (fold_left (pivot_step viz) points []) in
  let data := ChartOrTable_data E viz rows in
  Forall2
    (fun xStr row =>
       forall c,
         own_name c = true ->
         let ys := contributions (groupBy_list viz) c
                     (bucket x_text xStr points) in
         Obj.get row c
         = fold_left (fun a b => JS.plus (JS.or a (JS.num 0))
                                         (JS.or b (JS.num 0)))
                     ys (Obj.get [("x", VStr xStr)] c)
         /\ (c <> "x" -> ys = [] -> Obj.get row c = VUndefined)
         /\ (~ In "y" (groupBy_list viz) -> exists ns, ys = map VNum ns)
         /\ (c <> "x" ->
             forall ns,
               ys = map VNum ns -> ns <> [] ->
               forallb ordinary (running_sums JSNumber.pos_zero ns) = true ->
               Obj.get row c = VNum (sum_of ns)))
    (distinct (map x_text points)) pivoted
  /\ Permutation pivoted data
  /\ (temporal_axis viz (pickXKey viz rows) = true ->
      Forall (fun d => JSNumber.is_finite (time_of E d) = true) pivoted ->
      data = Array_sort (compare_dates E) pivoted
      /\ sorted_by (compare_dates E) data)
  /\ (temporal_axis viz (pickXKey viz rows) = false ->
      data = Array_sort (compare_x E) pivoted
      /\ in_order (compare_x E) data)
  /\ (forall r dim k,
        In dim (groupBy_list viz) ->
        dim_column dim r = Some k -> k <> "" -> Obj.get r k <> VUndefined ->
        Obj.get (map_row viz (pickXKey viz rows) (actualYKey viz rows) r) dim
        = Obj.get r k)
  /\ ChartOrTable_data E Examples.monthly_viz Examples.monthly_rows
     = [[("x", VStr "2024-01"); ("North", JS.num 10); ("South", JS.num 20)];
        [("x", VStr "2024-02"); ("North", JS.num 5)]]
  /\ ChartOrTable_data E Examples.monthly_viz (rev Examples.monthly_rows)
     = [[("x", VStr "2024-01"); ("South", JS.num 20); ("North", JS.num 10)];
        [("x", VStr "2024-02"); ("North", JS.num 5)]]
  /\ ChartOrTable_data E Examples.monthly_viz Examples.repeated_rows
     = [[("x", VStr "2024-01"); ("North", JS.num 15)];
        [("x", VStr "2024-02"); ("North", JS.num 7)]].
Proof.
  intros _ Hrows Hy Hg Hx Hvx points pivoted data.
  assert (Hpiv : pivoted
                 = JSMap.values (grouped x_text (pivot_init viz) (pivot_upd viz)
                                   points)).
  { unfold pivoted.
    rewrite (fold_left_ext_eq (pivot_step viz)
               (upsert x_text (pivot_init viz) (pivot_upd viz))
               points [] (pivot_step_upsert viz)).
    now rewrite fold_upsert_grouped. }
  assert (Hdata : data
                  = Array_sort (if temporal_axis viz (pickXKey viz rows)
                                then compare_dates E else compare_x E)
                      pivoted).
  { unfold data, ChartOrTable_data. rewrite Hrows, Hy, Hg, Hx, Hvx. simpl.
    fold points. fold pivoted.
    now destruct (temporal_axis viz (pickXKey viz rows)). }
  split; [|split; [|split; [|split; [|split;
    [intros; now apply map_row_dimension|repeat split; reflexivity]]]]].
  - rewrite Hpiv. unfold JSMap.values. apply Forall2_map_r.
    eapply Forall2_impl; [|apply grouped_entries].
    intros k [k' row] (Hk & d0 & later & Hb & Hkey & Hfold) c Hc.
    simpl in Hk, Hfold. subst k'.
    set (ys := contributions (groupBy_list viz) c (bucket x_text k points)).
    assert (Hget : Obj.get row c
                   = fold_left sum_or_zero ys (Obj.get [("x", VStr k)] c)).
    { rewrite Hfold. unfold ys. rewrite Hb. unfold pivot_init. rewrite Hkey.
      change (fold_left (pivot_upd viz) later
                (pivot_upd viz [("x", VStr k)] d0))
        with (fold_left (pivot_upd viz) (d0 :: later) [("x", VStr k)]).
      apply pivot_bucket_get. }
    assert (Hstart : c <> "x" -> Obj.get [("x", VStr k)] c = VUndefined).
    { intros Hcx. unfold Obj.get.
      destruct (String.eqb_spec "x" c); [congruence|reflexivity]. }
    cbn [snd]. split; [exact Hget|split; [|split]].
    + intros Hcx Hys. rewrite Hget, Hys. simpl. now apply Hstart.
    + intros Hno. apply numbers_list. apply Forall_forall. intros v Hv.
      apply contributions_from_points in Hv. destruct Hv as (p & Hp & ->).
      apply bucket_incl in Hp.
      pose proof (mapped_y_not_nan viz (pickXKey viz rows)
                    (actualYKey viz rows) rows Hno) as Hnum.
      rewrite Forall_forall in Hnum.
      destruct (Hnum p Hp) as (n & Hn & _). now exists n.
    + intros Hcx ns Hys Hne Hs. rewrite Hget, (Hstart Hcx), Hys.
      now apply fold_sum_plain_start.
  - rewrite Hdata. apply Array_sort_perm.
  - intros Ht _. rewrite Hdata, Ht. split; [reflexivity|].
    apply in_order_sorted_by; [apply compare_dates_antisym|].
    apply Array_sort_in_order.
  - intros Ht. rewrite Hdata, Ht. split; [reflexivity|apply Array_sort_in_order].
Qed.

Lemma pivot_series_witness :
  sorted_by (compare_dates reference_engine)
    (ChartOrTable_data reference_engine Examples.monthly_viz
       Examples.repeated_rows)
  /\ Obj.get [("x", VStr "2024-01"); ("North", JS.num 15)] "North"
     = VNum (sum_of [JSNumber.of_Z 10; JSNumber.of_Z 5])
  /\ Obj.get [("x", VStr "2024-01"); ("North", JS.num 15)] "South"
     = VUndefined.
Proof.
  destruct (pivot_series reference_engine Examples.monthly_viz
              Examples.repeated_rows eq_refl eq_refl eq_refl eq_refl eq_refl
              eq_refl)
    as (Hrows & _ & Hdates & _).
  split; [apply Hdates; [reflexivity|repeat constructor]|].
  assert (Hfirst :
            forall c,
              own_name c = true ->
              let ys := contributions ["region"] c
                          (bucket x_text "2024-01"
                             (mapped Examples.monthly_viz (VStr "month")
                                (VStr "sales") Examples.repeated_rows)) in
              Obj.get [("x", VStr "2024-01"); ("North", JS.num 15)] c
              = fold_left (fun a b => JS.plus (JS.or a (JS.num 0))
                                              (JS.or b (JS.num 0)))
                          ys (Obj.get [("x", VStr "2024-01")] c)
              /\ (c <> "x" -> ys = [] ->
                  Obj.get [("x", VStr "2024-01"); ("North", JS.num 15)] c
                  = VUndefined)
              /\ (~ In "y" ["region"] -> exists ns, ys = map VNum ns)
              /\ (c <> "x" ->
                  forall ns,
                    ys = map VNum ns -> ns <> [] ->
                    forallb ordinary (running_sums JSNumber.pos_zero ns) = true ->
                    Obj.get [("x", VStr "2024-01"); ("North", JS.num 15)] c
                    = VNum (sum_of ns))).
  { exact (Forall2_cons_inv_head Hrows). }
  split.
  - apply (proj2 (proj2 (proj2 (Hfirst "North" eq_refl))));
      [discriminate|reflexivity|discriminate|reflexivity].
  - apply (proj1 (proj2 (Hfirst "South" eq_refl)));
      [discriminate|reflexivity].
Defined.

(* ================================================================== *)
(** * The ranking of a time series *)
(* ================================================================== *)









(* ================================================================== *)
(** * Further lemmas on objects and on the sort *)
(* ================================================================== *)

Lemma insert_index_in (x k : Z * string) (l : list (Z * string)) :
  In x (Obj.insert_index k l) <-> x = k \/ In x l.
Proof.
  induction l as [|k' l IH]; simpl.
  - intuition.
  - destruct (fst k <? fst k'); simpl; [intuition|].
    rewrite IH. intuition.
Qed.

Lemma index_keys_in (i : Z) (k : string) (ks : list string) :
  In (i, k) (Obj.index_keys ks) <-> In k ks /\ Obj.array_index k = Some i.
Proof.
  induction ks as [|k0 ks IH]; simpl.
  - tauto.
  - destruct (Obj.array_index k0) as [i0|] eqn:H0.
    + rewrite insert_index_in, IH. split.
      * intros [[= -> ->]|[Hin Hi]]; auto.
      * intros [[->|Hin] Hi]; [left; congruence|right; auto].
    + rewrite IH. split.
      * intros [Hin Hi]. auto.
      * intros [[->|Hin] Hi]; [congruence|auto].
Qed.

(** [Object.keys] lists the property names, each one. *)
Lemma keys_in (o : obj) (k : string) :
  In k (Obj.keys o) <-> In k (map fst o).
Proof.
  unfold Obj.keys. rewrite in_app_iff, filter_In, in_map_iff.
  unfold Obj.is_index. split.
  - intros [([i k'] & Hk & Hin)|[Hin _]]; [|assumption].
    simpl in Hk. subst k'. now apply index_keys_in in Hin.
  - intros Hin. destruct (Obj.array_index k) as [i|] eqn:Hi.
    + left. exists (i, k). split; [reflexivity|]. now apply index_keys_in.
    + right. auto.
Qed.

Lemma has_in (o : obj) (k : string) :
  Obj.has o k = true <-> In k (map fst o).
Proof.
  induction o as [|[k' v] o IH]; simpl.
  - split; [discriminate|tauto].
  - rewrite orb_true_iff, IH, String.eqb_eq. tauto.
Qed.

Lemma has_keys (o : obj) (k : string) :
  Obj.has o k = true <-> In k (Obj.keys o).
Proof. now rewrite has_in, keys_in. Qed.

Lemma get_absent (o : obj) (k : string) :
  Obj.has o k = false -> Obj.get o k = VUndefined.
Proof.
  induction o as [|[k' v] o IH]; simpl; [reflexivity|].
  destruct (String.eqb k' k); simpl; [discriminate|assumption].
Qed.

(** A comparator that puts no element of the list strictly before another
    leaves the list as it is. *)
Lemma sort_insert_last {A : Type} (cmp : A -> A -> number) (a : A) (l : list A) :
  (forall b, In b l -> JSNumber.ltb0 (cmp a b) = false) ->
  sort_insert cmp a l = (l ++ [a])%list.
Proof.
  induction l as [|b l IH]; simpl; intros H; [reflexivity|].
  rewrite (H b) by auto. f_equal. apply IH. auto.
Qed.

Lemma Array_sort_all_equal {A : Type} (cmp : A -> A -> number) (l : list A) :
  (forall a b, In a l -> In b l -> JSNumber.ltb0 (cmp a b) = false) ->
  Array_sort cmp l = l.
Proof.
  intros H. unfold Array_sort.
  enough (Hgen : forall rest acc,
             l = (acc ++ rest)%list ->
             fold_left (fun s a => sort_insert cmp a s) rest acc = l)
    by (apply (Hgen l []); reflexivity).
  induction rest as [|a rest IH]; intros acc Hl; simpl.
  - now rewrite app_nil_r in Hl.
  - rewrite sort_insert_last.
    + apply IH. now rewrite <- app_assoc.
    + intros b Hb. apply H; rewrite Hl, in_app_iff; simpl; auto.
Qed.

Lemma find_first_app {A : Type} (p : A -> bool) (l1 l2 : list A) :
  find_first p (l1 ++ l2)
  = match find_first p l1 with
    | Some a => Some a
    | None => find_first p l2
    end.
Proof.
  induction l1 as [|a l1 IH]; simpl; [reflexivity|].
  now destruct (p a).
Qed.

Lemma find_first_map {A B : Type} (f : A -> B) (p : B -> bool) (l : list A) :
  find_first p (map f l) = option_map f (find_first (fun a => p (f a)) l).
Proof.
  induction l as [|a l IH]; simpl; [reflexivity|].
  now destruct (p (f a)).
Qed.

Lemma replace_last_app {A : Type} (l : list A) (a b : A) :
  replace_last (l ++ [a]) b = (l ++ [b])%list.
Proof.
  induction l as [|c l IH]; [reflexivity|].
  simpl app. simpl replace_last. rewrite IH.
  destruct (l ++ [a])%list eqn:E; [|reflexivity].
  destruct l; discriminate.
Qed.

(* ================================================================== *)
(** * [pickXKey] *)
(* ================================================================== *)

Lemma explicit_x_column (viz : VizSpec) (r0 : obj) (rest : list obj) (k : string) :
  explicit_x viz (r0 :: rest) = Some k -> Obj.has r0 k = true.
Proof.
  unfold explicit_x. destruct (viz_x viz) as [x|]; [|discriminate].
  destruct (truthy x); [|discriminate].
  destruct (Obj.has r0 x) eqn:Hx; [now intros [= <-]|].
  destruct (String.eqb x "date"); [|discriminate].
  destruct (find_first (Obj.has r0) dateColumns) as [col|] eqn:Hcol.
  - intros [= <-]. now apply find_first_some in Hcol.
  - destruct (find_first date_like (Obj.keys r0)) as [dl|] eqn:Hdl; [|discriminate].
    destruct (truthy dl); [|discriminate]. intros [= <-].
    apply find_first_some in Hdl. now apply has_keys.
Qed.

(** X1. Without rows [pickXKey] answers null, and undefined when the first
    row has no column at all. In every other case it answers the name of a
    column that the first row has: whatever the chart asks for, the x key
    never names a column that is missing from the first row. *)
Theorem pickXKey_names_a_column (viz : VizSpec) (r0 : obj) (rest : list obj) :
  pickXKey viz [] = VNull
  /\ pickXKey viz ([] :: rest) = VUndefined
  /\ (Obj.keys r0 <> [] ->
      exists k, pickXKey viz (r0 :: rest) = VStr k
                /\ Obj.has r0 k = true /\ In k (Obj.keys r0)).
Proof.
  assert (Hcand : forall rows (cands : list (option string)) o,
             find_first (fun key => match rows, key with
                                    | r :: _, Some k => (truthy k && Obj.has r k)%bool
                                    | _, _ => false
                                    end) cands = Some o ->
             exists r rs k, rows = r :: rs /\ o = Some k /\ Obj.has r k = true).
  { intros rows cands o H. apply find_first_some in H.
    destruct H as (_ & H & _). destruct rows as [|r rs]; [discriminate|].
    destruct o as [k|]; [|discriminate].
    apply andb_true_iff in H. exists r, rs, k. tauto. }
  split; [|split].
  - unfold pickXKey.
    replace (explicit_x viz []) with (@None string)
      by (unfold explicit_x; now destruct (viz_x viz)).
    match goal with |- context [find_first ?p ?l] =>
      destruct (find_first p l) as [o|] eqn:Hf end; [|reflexivity].
    apply (Hcand [] _ o) in Hf. destruct Hf as (r & rs & k & Hr & _).
    discriminate.
  - unfold pickXKey.
    destruct (explicit_x viz ([] :: rest)) as [k|] eqn:He.
    + apply explicit_x_column in He. discriminate.
    + match goal with |- context [find_first ?p ?l] =>
        destruct (find_first p l) as [o|] eqn:Hf end; [|reflexivity].
      apply (Hcand ([] :: rest) _ o) in Hf.
      destruct Hf as (r & rs & k & [= <- <-] & _ & Hh).
      discriminate.
  - intros Hkeys. unfold pickXKey.
    destruct (explicit_x viz (r0 :: rest)) as [k|] eqn:He.
    + exists k. apply explicit_x_column in He.
      repeat split; [assumption|now apply has_keys].
    + match goal with |- context [find_first ?p ?l] =>
        destruct (find_first p l) as [o|] eqn:Hf end.
      * apply (Hcand (r0 :: rest) _ o) in Hf.
        destruct Hf as (r & rs & k & [= <- <-] & -> & Hh).
        exists k. repeat split; [assumption|now apply has_keys].
      * assert (Hhead : exists k, match Obj.keys r0 with
                                   | k :: _ => VStr k
                                   | [] => VUndefined
                                   end = VStr k
                                  /\ Obj.has r0 k = true /\ In k (Obj.keys r0)).
        { destruct (Obj.keys r0) as [|k ks] eqn:Hk; [contradiction|].
          exists k. assert (Hin : In k (Obj.keys r0)) by (rewrite Hk; now left).
          repeat split; [now apply has_keys|now rewrite <- Hk]. }
        destruct (find_first (fun k => JS.typeof_string (Obj.get r0 k))
                             (Obj.keys r0)) as [first|] eqn:Hfirst;
          [|exact Hhead].
        destruct (truthy first); [|exact Hhead].
        exists first. apply find_first_some in Hfirst.
        destruct Hfirst as (Hin & _). repeat split; [now apply has_keys|assumption].
Qed.

Lemma pickXKey_names_a_column_witness :
  exists k,
    pickXKey Examples.monthly_viz Examples.monthly_rows = VStr k
    /\ Obj.has (Examples.sales_row "2024-01" "North" (JS.num 10)) k = true
    /\ In k ["month"; "region"; "sales"].
Proof.
  refine (proj2 (proj2 (pickXKey_names_a_column Examples.monthly_viz
                          (Examples.sales_row "2024-01" "North" (JS.num 10))
                          (tl Examples.monthly_rows))) _).
  discriminate.
Defined.

(** X2. The order in which [pickXKey] decides. An x hint that is a column of
    the first row is the answer, whatever groupBy says. For the hint date
    without a date column, the first of date, month, year, quarter, week, day
    that is a column is the answer, again before any groupBy dimension.
    Without an x hint, the first groupBy dimension that is a column is the
    answer. *)
Theorem pickXKey_priority (viz : VizSpec) (r0 : obj) (rest : list obj) :
  (forall x, viz_x viz = Some x -> x <> "" -> Obj.has r0 x = true ->
             pickXKey viz (r0 :: rest) = VStr x)
  /\ (forall col, viz_x viz = Some "date" -> Obj.has r0 "date" = false ->
                  find_first (Obj.has r0) dateColumns = Some col ->
                  pickXKey viz (r0 :: rest) = VStr col)
  /\ (forall g, viz_x viz = None ->
                find_first (fun g => (truthy g && Obj.has r0 g)%bool)
                           (groupBy_list viz) = Some g ->
                pickXKey viz (r0 :: rest) = VStr g).
Proof.
  split; [|split].
  - intros x Hx Hne Hhas. unfold pickXKey, explicit_x.
    now rewrite Hx, (truthy_nonempty x Hne), Hhas.
  - intros col Hx Hno Hcol. unfold pickXKey, explicit_x.
    rewrite Hx. change (truthy "date") with true. cbv iota.
    rewrite Hno. change (String.eqb "date" "date") with true. cbv iota.
    now rewrite Hcol.
  - intros g Hx Hg. unfold pickXKey, explicit_x. rewrite Hx.
    rewrite find_first_app, find_first_map. simpl.
    now rewrite Hg.
Qed.

Lemma pickXKey_priority_witness :
  pickXKey Examples.monthly_viz Examples.weekly_rows = VStr "week"
  /\ pickXKey Examples.region_viz Examples.region_rows = VStr "region".
Proof.
  split.
  - exact (proj1 (proj2 (pickXKey_priority Examples.monthly_viz
                           [("week", VStr "2024-20"); ("region", VStr "North");
                            ("sales", JS.num 7)]
                           (tl Examples.weekly_rows)))
             "week" eq_refl eq_refl eq_refl).
  - exact (proj2 (proj2 (pickXKey_priority Examples.region_viz
                           [("region", VStr "North"); ("sales", VStr "10")]
                           (tl Examples.region_rows)))
             "region" eq_refl eq_refl).
Defined.

(* ================================================================== *)
(** * [actualYKey], the flat series, the engine *)
(* ================================================================== *)

(** X3. What the y key can be. A hint that is a column of the first row is
    kept as it is, whatever other columns resemble it; without rows the hint
    is kept too. Otherwise the key is either the hint, unresolved, or a
    non-empty column name of the first row that passes the test of
    resemblance; and a key that names a column is settled: taken as the hint
    it is kept. *)
Theorem actualYKey_hint_or_column (viz : VizSpec) (r0 : obj) (rest : list obj) :
  actualYKey viz [] = yKey_of viz
  /\ (forall y, yKey_of viz = VStr y -> Obj.has r0 y = true ->
                actualYKey viz (r0 :: rest) = VStr y)
  /\ (actualYKey viz (r0 :: rest) = yKey_of viz
      \/ exists y k,
           yKey_of viz = VStr y /\ Obj.has r0 y = false
           /\ actualYKey viz (r0 :: rest) = VStr k
           /\ k <> "" /\ In k (Obj.keys r0) /\ fuzzy_y y k = true
           /\ forall viz', yKey_of viz' = VStr k ->
                           actualYKey viz' (r0 :: rest) = VStr k).
Proof.
  split; [reflexivity|]. split.
  - intros y Hy Hhas. unfold actualYKey. rewrite Hy, Hhas.
    now rewrite andb_false_r.
  - unfold actualYKey. destruct (yKey_of viz) as [| |b|n|y] eqn:Hy; auto.
    destruct (truthy y && negb (Obj.has r0 y))%bool eqn:Hc; auto.
    destruct (find_first (fuzzy_y y) (Obj.keys r0)) as [k|] eqn:Hf; auto.
    destruct (truthy k) eqn:Hk; auto.
    right. exists y, k. apply andb_true_iff in Hc. destruct Hc as [_ Hc].
    apply negb_true_iff in Hc. apply find_first_some in Hf.
    destruct Hf as (Hin & Hfz & _).
    repeat split; try assumption.
    + intros ->. discriminate.
    + intros viz' Hy'. rewrite Hy'.
      now rewrite (proj2 (has_keys r0 k) Hin), andb_false_r.
Qed.

Lemma actualYKey_hint_or_column_witness :
  actualYKey (Examples.plain_viz "sales")
    [[("total_sales", JS.num 1); ("sales", JS.num 2)]] = VStr "sales".
Proof.
  exact (proj1 (proj2 (actualYKey_hint_or_column (Examples.plain_viz "sales")
                         [("total_sales", JS.num 1); ("sales", JS.num 2)] []))
           "sales" eq_refl eq_refl).
Defined.

(** X4. Without groupBy the series is the rows themselves: one point per row,
    in the order of the rows, except the rows whose y is the Number NaN; a
    point has the two properties x and y, x being the row's value under the
    x key, or Unknown when that is absent or null. *)
Theorem flat_series_is_row_by_row (E : Engine) (viz : VizSpec) (rows : list obj) :
  has_groupBy viz = false ->
  is_nonempty rows = true ->
  JS.ToBoolean (actualYKey viz rows) = true ->
  let xk := JS.ToString (pickXKey viz rows) in
  let yk := JS.ToString (actualYKey viz rows) in
  ChartOrTable_data E viz rows
  = map (fun r => [("x", JS.nullish (Obj.get r xk) (VStr "Unknown"));
                   ("y", yNum_of (Obj.get r yk))])
        (filter (fun r => negb (y_is_NaN (Obj.get r yk))) rows)
  /\ (List.length (ChartOrTable_data E viz rows) <= List.length rows)%nat.
Proof.
  intros Hg Hrows Hy xk yk.
  assert (Hno : ~ In "y" (groupBy_list viz))
    by (rewrite has_groupBy_false_list by assumption; intros []).
  assert (Hdata : ChartOrTable_data E viz rows
                  = map (fun r => [("x", JS.nullish (Obj.get r xk) (VStr "Unknown"));
                                   ("y", yNum_of (Obj.get r yk))])
                        (filter (fun r => negb (y_is_NaN (Obj.get r yk))) rows)).
  { unfold ChartOrTable_data. rewrite Hrows, Hy, Hg. simpl.
    unfold mapped. rewrite filter_map_comm.
    rewrite (filter_ext _ (fun r => negb (y_is_NaN (Obj.get r yk))))
      by (intros r; now apply keep_point_map_row).
    apply map_ext. intros r. unfold map_row. rewrite Hg. fold xk yk.
    destruct (yNum_of_number (Obj.get r yk)) as [n Hn]. now rewrite Hn. }
  split; [exact Hdata|].
  rewrite Hdata, length_map. apply filter_length_le.
Qed.

Lemma flat_series_is_row_by_row_witness :
  ChartOrTable_data reference_engine (Examples.plain_viz "sales")
    Examples.two_regions
  = [[("x", VStr "North"); ("y", JS.num 1)];
     [("x", VStr "South"); ("y", JS.num 2)]].
Proof.
  rewrite (proj1 (flat_series_is_row_by_row reference_engine
                    (Examples.plain_viz "sales") Examples.two_regions
                    eq_refl eq_refl eq_refl)).
  reflexivity.
Defined.

(** X5. The engine decides nothing but an order: for two engines the series
    hold the same points, each as often, and without groupBy, or with groupBy
    and no usable x, they are the same list. *)
Theorem series_up_to_engine (E E' : Engine) (viz : VizSpec) (rows : list obj) :
  Permutation (ChartOrTable_data E viz rows) (ChartOrTable_data E' viz rows)
  /\ (has_groupBy viz = false
      \/ JS.ToBoolean (pickXKey viz rows) = false
      \/ opt_truthy (viz_x viz) = false ->
      ChartOrTable_data E viz rows = ChartOrTable_data E' viz rows).
Proof.
  unfold ChartOrTable_data.
  destruct (is_nonempty rows && JS.ToBoolean (actualYKey viz rows))%bool;
    [|split; reflexivity].
  destruct (has_groupBy viz); [|split; reflexivity].
  destruct (JS.ToBoolean (pickXKey viz rows)); simpl; [|split; reflexivity].
  destruct (opt_truthy (viz_x viz)); simpl; [|split; reflexivity].
  split.
  - destruct (temporal_axis viz (pickXKey viz rows));
      (etransitivity; [symmetry; apply Array_sort_perm|apply Array_sort_perm]).
  - intros [H|[H|H]]; discriminate.
Qed.

Lemma series_up_to_engine_witness :
  ChartOrTable_data reference_engine Examples.region_viz Examples.region_rows
  = ChartOrTable_data
      {| localeCompare := fun _ _ => Eq;
         parse_other_date := fun _ => JSNumber.of_Z 0 |}
      Examples.region_viz Examples.region_rows.
Proof.
  apply (proj2 (series_up_to_engine reference_engine _ Examples.region_viz
                  Examples.region_rows)).
  right. right. reflexivity.
Defined.

(* ================================================================== *)
(** * The names of the series *)
(* ================================================================== *)

Lemma set_add_in (seen : list string) (k k' : string) :
  In k (set_add seen k') <-> In k seen \/ k = k'.
Proof.
  unfold set_add. destruct (existsb (String.eqb k') seen) eqn:Hex.
  - apply existsb_exists in Hex. destruct Hex as (x & Hx & Heq).
    apply String.eqb_eq in Heq. subst x. split; [auto|].
    intros [H| ->]; assumption.
  - rewrite in_app_iff. simpl. intuition.
Qed.

Lemma set_add_NoDup (seen : list string) (k : string) :
  NoDup seen -> NoDup (set_add seen k).
Proof.
  intros Hnd. unfold set_add.
  destruct (existsb (String.eqb k) seen) eqn:Hex; [assumption|].
  apply NoDup_app_remove_l with (l := []). simpl.
  apply Permutation_NoDup with (l := k :: seen);
    [apply Permutation_cons_append|].
  constructor; [|assumption]. intros Hin.
  assert (Ht : existsb (String.eqb k) seen = true).
  { apply existsb_exists. exists k. split; [assumption|apply String.eqb_refl]. }
  congruence.
Qed.

Section SeriesKeys.
Variable keep : string -> bool.

Local Abbreviation add_kept := (add_if keep).

Lemma add_kept_in (ks : list string) : forall acc k,
  In k (fold_left add_kept ks acc) <-> In k acc \/ (In k ks /\ keep k = true).
Proof.
  induction ks as [|k0 ks IH]; intros acc k; simpl; [tauto|].
  rewrite IH. unfold add_if. destruct (keep k0) eqn:Hk0.
  - rewrite set_add_in. split.
    + intros [[H| ->]|[H Hk]]; auto.
    + intros [H|[[->|H] Hk]]; auto.
  - split.
    + intros [H|[H Hk]]; auto.
    + intros [H|[[->|H] Hk]]; [auto|congruence|auto].
Qed.

Lemma add_kept_NoDup (ks : list string) : forall acc,
  NoDup acc -> NoDup (fold_left add_kept ks acc).
Proof.
  induction ks as [|k0 ks IH]; intros acc H; simpl; [assumption|].
  apply IH. unfold add_if. destruct (keep k0); [now apply set_add_NoDup|assumption].
Qed.

Lemma add_all_kept_in (data : list obj) : forall acc k,
  In k (fold_left (fun allKeys d => fold_left add_kept (Obj.keys d) allKeys)
                  data acc)
  <-> In k acc \/ (keep k = true /\ exists d, In d data /\ In k (Obj.keys d)).
Proof.
  induction data as [|d data IH]; intros acc k; simpl.
  - split; [auto|]. intros [H|(_ & d & [] & _)]. assumption.
  - rewrite IH, add_kept_in. split.
    + intros [[H|[H Hk]]|(Hk & d' & Hd' & Hin)]; auto.
      * right. split; [assumption|]. exists d. auto.
      * right. split; [assumption|]. exists d'. auto.
    + intros [H|(Hk & d' & [<-|Hd'] & Hin)]; auto.
      right. split; [assumption|]. exists d'. auto.
Qed.

Lemma add_all_kept_NoDup (data : list obj) : forall acc,
  NoDup acc ->
  NoDup (fold_left (fun allKeys d => fold_left add_kept (Obj.keys d) allKeys)
                   data acc).
Proof.
  induction data as [|d data IH]; intros acc H; simpl; [assumption|].
  apply IH. now apply add_kept_NoDup.
Qed.
End SeriesKeys.

(** X6. The series drawn for a grouped chart are exactly the property names
    of the data rows other than x, date and y, each once: a group value
    spelled x, date or y never gets a series of its own, and without groupBy
    there is no named series. *)
Theorem seriesKeys_are_the_other_properties (viz : VizSpec) (data : list obj)
  (k : string) :
  (In k (seriesKeys_of viz data)
   <-> has_groupBy viz = true
       /\ k <> "x" /\ k <> "date" /\ k <> "y"
       /\ exists d, In d data /\ In k (Obj.keys d))
  /\ NoDup (seriesKeys_of viz data).
Proof.
  unfold seriesKeys_of.
  destruct (has_groupBy viz && is_nonempty data)%bool eqn:Hc.
  - apply andb_true_iff in Hc. destruct Hc as [Hg _]. split.
    + change (In k (fold_left
                      (fun allKeys d =>
                         fold_left
                           (add_if (fun k => (negb (String.eqb k "x")
                                                && negb (String.eqb k "date")
                                                && negb (String.eqb k "y"))%bool))
                           (Obj.keys d) allKeys) data [])
              <-> has_groupBy viz = true
                  /\ k <> "x" /\ k <> "date" /\ k <> "y"
                  /\ exists d, In d data /\ In k (Obj.keys d)).
      rewrite add_all_kept_in, !andb_true_iff, !negb_true_iff, !String.eqb_neq.
      simpl. tauto.
    + apply (add_all_kept_NoDup
               (fun k => (negb (String.eqb k "x") && negb (String.eqb k "date")
                          && negb (String.eqb k "y"))%bool)).
      constructor.
  - split; [|constructor]. split; [intros []|].
    intros (Hg & _ & _ & _ & d & Hd & _). rewrite Hg in Hc. simpl in Hc.
    destruct data; [destruct Hd|discriminate].
Qed.

(* ================================================================== *)
(** * The values of a grouped series *)
(* ================================================================== *)

Lemma sum_or_zero_number (a b : JSValue) :
  a = VUndefined \/ is_number a -> is_number b -> is_number (sum_or_zero a b).
Proof.
  intros Ha [n ->]. unfold sum_or_zero, JS.or.
  destruct Ha as [->|[m ->]]; simpl.
  - destruct (JSNumber.truthy n); eexists; reflexivity.
  - destruct (JSNumber.truthy m), (JSNumber.truthy n); eexists; reflexivity.
Qed.

Lemma fold_sum_from_number (ys : list JSValue) : forall a,
  is_number a -> Forall is_number ys -> is_number (fold_left sum_or_zero ys a).
Proof.
  induction ys as [|y ys IH]; intros a Ha Hys; simpl; [assumption|].
  inversion Hys as [|? ? Hy Hys']; subst.
  apply IH; [|assumption]. apply sum_or_zero_number; auto.
Qed.

Lemma fold_sum_from_nothing (ys : list JSValue) :
  Forall is_number ys ->
  fold_left sum_or_zero ys VUndefined = VUndefined
  \/ is_number (fold_left sum_or_zero ys VUndefined).
Proof.
  destruct ys as [|y ys]; simpl; [auto|]. intros Hys.
  inversion Hys as [|? ? Hy Hys']; subst. right.
  apply fold_sum_from_number; [|assumption].
  apply sum_or_zero_number; auto.
Qed.

(** The series of the branch without x, as a grouping. *)
Lemma aggregated_data (E : Engine) (viz : VizSpec) (rows : list obj) :
  is_nonempty rows = true ->
  JS.ToBoolean (actualYKey viz rows) = true ->
  has_groupBy viz = true ->
  JS.ToBoolean (pickXKey viz rows) = false \/ opt_truthy (viz_x viz) = false ->
  ChartOrTable_data E viz rows
  = JSMap.values (grouped (groupKey_of viz) (group_init viz) group_upd
                    (mapped viz (pickXKey viz rows) (actualYKey viz rows) rows)).
Proof.
  intros Hrows Hy Hg Hx.
  assert (Hbranch : (negb (JS.ToBoolean (pickXKey viz rows))
                     || negb (opt_truthy (viz_x viz)))%bool = true).
  { destruct Hx as [-> | ->]; [reflexivity|apply orb_true_r]. }
  unfold ChartOrTable_data. rewrite Hrows, Hy, Hg, Hbranch. simpl.
  rewrite (fold_left_ext_eq (group_step viz)
             (upsert (groupKey_of viz) (group_init viz) group_upd)
             _ [] (group_step_upsert viz)).
  now rewrite fold_upsert_grouped.
Qed.

(** The series of the pivot, as a grouping that is then sorted. *)
Lemma pivoted_data (E : Engine) (viz : VizSpec) (rows : list obj) :
  is_nonempty rows = true ->
  JS.ToBoolean (actualYKey viz rows) = true ->
  has_groupBy viz = true ->
  JS.ToBoolean (pickXKey viz rows) = true ->
  opt_truthy (viz_x viz) = true ->
  ChartOrTable_data E viz rows
  = Array_sort (if temporal_axis viz (pickXKey viz rows)
                then compare_dates E else compare_x E)
      (JSMap.values (grouped x_text (pivot_init viz) (pivot_upd viz)
                       (mapped viz (pickXKey viz rows) (actualYKey viz rows)
                          rows))).
Proof.
  intros Hrows Hy Hg Hx Hvx.
  unfold ChartOrTable_data. rewrite Hrows, Hy, Hg, Hx, Hvx. simpl.
  rewrite (fold_left_ext_eq (pivot_step viz)
             (upsert x_text (pivot_init viz) (pivot_upd viz))
             _ [] (pivot_step_upsert viz)).
  rewrite fold_upsert_grouped.
  now destruct (temporal_axis viz (pickXKey viz rows)).
Qed.

(** X7. What a grouped chart can hold, when no groupBy dimension is named y
    and no hint or column carries a name of Object.prototype. Without a
    usable x, the y of every merged point is a Number. In a pivot, every
    property of a row other than x, under a name that is not a member of
    Object.prototype, is absent or a Number: such a series value is never a
    string, a boolean or null. *)
Theorem grouped_series_hold_numbers (E : Engine) (viz : VizSpec)
  (rows : list obj) (d : obj) :
  own_names viz rows = true ->
  is_nonempty rows = true ->
  JS.ToBoolean (actualYKey viz rows) = true ->
  has_groupBy viz = true ->
  ~ In "y" (groupBy_list viz) ->
  In d (ChartOrTable_data E viz rows) ->
  (JS.ToBoolean (pickXKey viz rows) = false \/ opt_truthy (viz_x viz) = false ->
   is_number (Obj.get d "y"))
  /\ (JS.ToBoolean (pickXKey viz rows) = true -> opt_truthy (viz_x viz) = true ->
      forall c, c <> "x" -> own_name c = true ->
                Obj.get d c = VUndefined \/ is_number (Obj.get d c)).
Proof.
  intros _ Hrows Hy Hg Hno Hd.
  pose proof (mapped_y_not_nan viz (pickXKey viz rows) (actualYKey viz rows)
                rows Hno) as Hnum.
  rewrite Forall_forall in Hnum.
  assert (Hpt : forall p,
             In p (mapped viz (pickXKey viz rows) (actualYKey viz rows) rows) ->
             is_number (Obj.get p "y")).
  { intros p Hp. destruct (Hnum p Hp) as (n & Hn & _). now exists n. }
  split.
  - intros Hx. rewrite aggregated_data in Hd by assumption.
    unfold JSMap.values in Hd. apply in_map_iff in Hd.
    destruct Hd as ([k e] & <- & Hin).
    destruct (Forall2_in_r _ _ _ _ (grouped_entries _ _ _ _) Hin)
      as (k' & _ & _ & d0 & later & Hb & _ & Hfold).
    simpl in Hfold |- *. rewrite Hfold, group_upd_y.
    apply fold_sum_from_number.
    + unfold group_init. rewrite ObjFacts.obj_get_set_other by discriminate.
      apply Hpt. apply (bucket_incl (groupKey_of viz) k'). rewrite Hb. now left.
    + apply Forall_forall. intros v Hv. apply in_map_iff in Hv.
      destruct Hv as (p & <- & Hp). apply Hpt.
      apply (bucket_incl (groupKey_of viz) k'). rewrite Hb. now right.
  - intros Hx Hvx c Hc _. rewrite pivoted_data in Hd by assumption.
    apply (Permutation_in _ (Permutation_sym (Array_sort_perm _ _))) in Hd.
    unfold JSMap.values in Hd. apply in_map_iff in Hd.
    destruct Hd as ([k e] & <- & Hin).
    destruct (Forall2_in_r _ _ _ _ (grouped_entries _ _ _ _) Hin)
      as (k' & _ & _ & d0 & later & Hb & Hkey & Hfold).
    simpl in Hfold |- *. rewrite Hfold. unfold pivot_init. rewrite Hkey.
    change (fold_left (pivot_upd viz) later (pivot_upd viz [("x", VStr k')] d0))
      with (fold_left (pivot_upd viz) (d0 :: later) [("x", VStr k')]).
    rewrite pivot_bucket_get.
    assert (Hxc : Obj.get [("x", VStr k')] c = VUndefined).
    { unfold Obj.get. destruct (String.eqb_spec "x" c); [congruence|reflexivity]. }
    rewrite Hxc.
    apply fold_sum_from_nothing. apply Forall_forall. intros v Hv.
    apply contributions_from_points in Hv. destruct Hv as (p & Hp & ->).
    apply Hpt. apply (bucket_incl x_text k'). now rewrite Hb.
Qed.

Lemma grouped_series_hold_numbers_witness :
  is_number (Obj.get [("x", VStr "North"); ("y", JS.num 15);
                      ("region", VStr "North")] "y")
  /\ (Obj.get [("x", VStr "2024-01"); ("North", JS.num 15)] "South" = VUndefined
      \/ is_number (Obj.get [("x", VStr "2024-01"); ("North", JS.num 15)]
                            "South")).
Proof.
  split.
  - refine (proj1 (grouped_series_hold_numbers reference_engine
                     Examples.region_viz Examples.region_rows _ eq_refl eq_refl
                     eq_refl eq_refl _ _) _).
    + simpl. intros [H|[]]. discriminate.
    + left. reflexivity.
    + right. reflexivity.
  - refine (proj2 (grouped_series_hold_numbers reference_engine
                     Examples.monthly_viz Examples.repeated_rows _ eq_refl
                     eq_refl eq_refl eq_refl _ _) eq_refl eq_refl "South" _
                  eq_refl).
    + simpl. intros [H|[]]. discriminate.
    + left. reflexivity.
    + discriminate.
Defined.

(* ================================================================== *)
(** * The plain ranking *)
(* ================================================================== *)

Lemma by_number_desc_antisym (a b : RankedItem) :
  JSNumber.ltb0 (by_number_desc a b) = true ->
  JSNumber.ltb0 (by_number_desc b a) = false.
Proof. apply sub_antisym. Qed.

Lemma TopList_plain (viz : VizSpec) (rows : list obj) (xKey yKey : JSValue) :
  (x_is_date viz && has_groupBy viz)%bool = false ->
  ChartOrTable_TopList viz rows xKey yKey
  = top_rows xKey (JS.or yKey (yKey_of viz)) rows.
Proof.
  intros H. unfold ChartOrTable_TopList. rewrite H. now destruct rows.
Qed.

(** X8. Unless the chart is over the date with a groupBy, the inline list of
    top results ranks the rows themselves: it shows at most ten items, ten
    when there are that many rows; each is the item of a row, label and
    measure; and no item is followed by one whose measure, as a Number, is
    greater. *)
Theorem plain_ranking (viz : VizSpec) (rows : list obj) (xKey yKey : JSValue) :
  (x_is_date viz && has_groupBy viz)%bool = false ->
  let displayYKey := JS.or yKey (yKey_of viz) in
  let item r := {| label := x_label xKey "N/A" r;
                   value := y_shown displayYKey (JS.num 0) r |} in
  let top := ChartOrTable_TopList viz rows xKey yKey in
  List.length top = Nat.min 10 (List.length rows)
  /\ sorted_by by_number_desc top
  /\ (exists ranked, Permutation (map item rows) ranked /\ top = firstn 10 ranked)
  /\ (forall it, In it top -> exists r, In r rows /\ it = item r).
Proof.
  intros H displayYKey item top. subst top.
  rewrite TopList_plain by assumption. unfold top_rows, slice0.
  fold displayYKey. fold item. split; [|split; [|split]].
  - now rewrite length_firstn, Array_sort_length, length_map.
  - apply in_order_sorted_by; [apply by_number_desc_antisym|].
    apply in_order_firstn, Array_sort_in_order.
  - eexists. split; [apply Array_sort_perm|reflexivity].
  - intros it Hit. apply in_firstn in Hit.
    apply (Permutation_in _ (Permutation_sym (Array_sort_perm _ _))) in Hit.
    apply in_map_iff in Hit. destruct Hit as (r & <- & Hr). now exists r.
Qed.

Lemma plain_ranking_witness :
  List.length (ChartOrTable_TopList (Examples.plain_viz "sales")
                 Examples.two_regions (VStr "region") (VStr "sales"))
  = 2%nat.
Proof.
  exact (proj1 (plain_ranking (Examples.plain_viz "sales") Examples.two_regions
                  (VStr "region") (VStr "sales") eq_refl)).
Defined.

(** X9. The plain ranking orders Numbers only. When the measure of every row
    is a string, as when the numbers arrive as text, nothing is ranked: the
    list is the first ten rows in the order they came, each with its text. *)
Theorem text_measures_are_not_ranked (viz : VizSpec) (rows : list obj)
  (xKey yKey : JSValue) :
  (x_is_date viz && has_groupBy viz)%bool = false ->
  let displayYKey := JS.or yKey (yKey_of viz) in
  JS.ToBoolean displayYKey = true ->
  (forall r, In r rows ->
             JS.typeof_string (Obj.get r (JS.ToString displayYKey)) = true) ->
  ChartOrTable_TopList viz rows xKey yKey
  = map (fun r => {| label := x_label xKey "N/A" r;
                     value := Obj.get r (JS.ToString displayYKey) |})
        (firstn 10 rows).
Proof.
  intros H displayYKey Hk Htext.
  rewrite TopList_plain by assumption. unfold top_rows, slice0.
  fold displayYKey.
  assert (Hitems : map (fun r => {| label := x_label xKey "N/A" r;
                                    value := y_shown displayYKey (JS.num 0) r |})
                       rows
                   = map (fun r => {| label := x_label xKey "N/A" r;
                                      value := Obj.get r (JS.ToString displayYKey) |})
                         rows).
  { apply map_ext_in. intros r Hr. f_equal. unfold y_shown. rewrite Hk.
    specialize (Htext r Hr).
    now destruct (Obj.get r (JS.ToString displayYKey)). }
  rewrite Hitems, Array_sort_all_equal; [now rewrite firstn_map|].
  intros a b Ha Hb. apply in_map_iff in Ha, Hb.
  destruct Ha as (ra & <- & Hra), Hb as (rb & <- & Hrb).
  unfold by_number_desc. simpl.
  pose proof (Htext ra Hra) as Ta. pose proof (Htext rb Hrb) as Tb.
  destruct (Obj.get ra (JS.ToString displayYKey)); try discriminate.
  destruct (Obj.get rb (JS.ToString displayYKey)); try discriminate.
  reflexivity.
Qed.

Lemma text_measures_are_not_ranked_witness :
  ChartOrTable_TopList Examples.region_viz Examples.region_rows
    (VStr "region") (VStr "sales")
  = [{| label := "North"; value := VStr "10" |};
     {| label := "North"; value := VStr "5" |};
     {| label := "South"; value := VStr "3" |}].
Proof.
  rewrite (text_measures_are_not_ranked Examples.region_viz Examples.region_rows
             (VStr "region") (VStr "sales") eq_refl eq_refl).
  - reflexivity.
  - intros r [<-|[<-|[<-|[]]]]; reflexivity.
Defined.

(* ================================================================== *)
(** * The full-screen chart beside the inline one *)
(* ================================================================== *)

(** X10. The full-screen chart draws what the inline chart draws. For a line
    or bar chart it shows nothing exactly when the inline component shows
    the notice of no data, and otherwise a chart of the same kind, with the
    same data and the same series. It has no table: for a table answer it
    shows nothing or a bar chart of the series. *)
Theorem fullscreen_matches_inline (E : Engine) (viz : VizSpec) (rows : list obj) :
  (viz_type viz <> table ->
   match ChartOrTable E viz rows with
   | ChartView kind data series _ _ =>
       exists top,
         FullscreenChart E viz rows
         = Some (ChartView kind data series "Top Results" top)
   | NoValidData _ => FullscreenChart E viz rows = None
   | _ => False
   end)
  /\ (viz_type viz = table ->
      FullscreenChart E viz rows = None
      \/ exists data top,
           data = ChartOrTable_data E viz rows
           /\ FullscreenChart E viz rows
              = Some (ChartView bar data (seriesKeys_of viz data)
                        "Top Results" top)).
Proof.
  unfold FullscreenChart, ChartOrTable. rewrite FullscreenChart_data_eq.
  split.
  - intros Ht. destruct (ChartOrTable_data E viz rows) as [|d data] eqn:Hd.
    + destruct (viz_type viz); [reflexivity|reflexivity|contradiction].
    + destruct (viz_type viz); [| |contradiction]; eexists; reflexivity.
  - intros ->. destruct (ChartOrTable_data E viz rows) as [|d data]; [now left|].
    right. eexists. eexists. split; reflexivity.
Qed.

Lemma fullscreen_matches_inline_witness :
  exists top,
    FullscreenChart reference_engine (Examples.plain_viz "sales")
      Examples.two_regions
    = Some (ChartView bar
              [[("x", VStr "North"); ("y", JS.num 1)];
               [("x", VStr "South"); ("y", JS.num 2)]] [] "Top Results" top).
Proof.
  exact (proj1 (fullscreen_matches_inline reference_engine
                  (Examples.plain_viz "sales") Examples.two_regions)
           ltac:(discriminate)).
Defined.

(* ================================================================== *)
(** * The shape of the table *)
(* ================================================================== *)

(** X11. The table is rectangular over the columns of the first row: every
    body row has one cell per column of the header, also when the rows do
    not all have the same columns. A shown row that lacks a column of the
    header shows the text undefined there, and a column that only later rows
    have is not shown. *)
Theorem table_is_rectangular (E : Engine) (viz : VizSpec) (r0 : obj)
  (rest : list obj) :
  viz_type viz = table ->
  exists body,
    ChartOrTable E viz (r0 :: rest) = TableView (Obj.keys r0) body
    /\ Forall (fun cells => List.length cells = List.length (Obj.keys r0)) body
    /\ forall i r j c,
         (i < 50)%nat -> nth_error (r0 :: rest) i = Some r ->
         nth_error (Obj.keys r0) j = Some c ->
         exists cells,
           nth_error body i = Some cells
           /\ nth_error cells j = Some (JS.ToString (Obj.get r c))
           /\ (Obj.has r c = false -> nth_error cells j = Some "undefined").
Proof.
  intros Ht. eexists. split; [|split].
  - unfold ChartOrTable. rewrite Ht. reflexivity.
  - apply Forall_forall. intros cells Hc. apply in_map_iff in Hc.
    destruct Hc as (r & <- & _). unfold table_cells. now rewrite length_map.
  - intros i r j c Hi Hr Hc. exists (table_cells (Obj.keys r0) r).
    unfold slice0, table_row_limit.
    rewrite nth_error_map, nth_error_firstn.
    destruct (Nat.ltb_spec i 50); [|lia]. rewrite Hr. simpl.
    unfold table_cells. rewrite nth_error_map, Hc. simpl.
    repeat split. intros Hh. now rewrite get_absent.
Qed.

Lemma table_is_rectangular_witness :
  exists body,
    ChartOrTable reference_engine Examples.table_viz
      [[("sku", VStr "A"); ("units", JS.num 2)]; [("sku", VStr "B")]]
    = TableView ["sku"; "units"] body
    /\ Forall (fun cells => List.length cells = 2%nat) body.
Proof.
  destruct (table_is_rectangular reference_engine Examples.table_viz
              [("sku", VStr "A"); ("units", JS.num 2)] [[("sku", VStr "B")]]
              eq_refl)
    as (body & Hview & Hrect & _).
  exists body. split; [exact Hview|exact Hrect].
Defined.

(* ================================================================== *)
(** * Dates that cannot be read *)
(* ================================================================== *)

(** X12. On a temporal axis, when the x of no pivoted row can be read as a
    date, the sort changes nothing: the chart shows the rows in the order
    their x values first occur in the rows. *)
Theorem unreadable_axis_keeps_first_seen_order (E : Engine) (viz : VizSpec)
  (rows : list obj) :
  is_nonempty rows = true ->
  JS.ToBoolean (actualYKey viz rows) = true ->
  has_groupBy viz = true ->
  JS.ToBoolean (pickXKey viz rows) = true ->
  opt_truthy (viz_x viz) = true ->
  temporal_axis viz (pickXKey viz rows) = true ->
  let pivoted :=
    JSMap.values
      (fold_left (pivot_step viz)
         (mapped viz (pickXKey viz rows) (actualYKey viz rows) rows) []) in
  Forall (fun d => JSNumber.is_nan (time_of E d) = true) pivoted ->
  ChartOrTable_data E viz rows = pivoted.
Proof.
  intros Hrows Hy Hg Hx Hvx Ht pivoted Hnan.
  unfold ChartOrTable_data. rewrite Hrows, Hy, Hg, Hx, Hvx, Ht. simpl.
  fold pivoted. apply Array_sort_all_equal.
  intros a b Ha _. rewrite Forall_forall in Hnan.
  apply compare_dates_unreadable. left. now apply Hnan.
Qed.

Lemma unreadable_axis_keeps_first_seen_order_witness :
  map x_text (ChartOrTable_data reference_engine Examples.monthly_viz
                Examples.weekly_rows)
  = ["2024-20"; "2024-15"].
Proof.
  rewrite (unreadable_axis_keeps_first_seen_order reference_engine
             Examples.monthly_viz Examples.weekly_rows
             eq_refl eq_refl eq_refl eq_refl eq_refl eq_refl).
  - reflexivity.
  - repeat constructor.
Defined.

(* ================================================================== *)
(** * [onSend] *)
(* ================================================================== *)

Lemma trim_start_spaces (s : string) :
  (forall c, In c (list_ascii_of_string s) -> JSNumber.is_space c = true) ->
  JSNumber.trim_start s = "".
Proof.
  induction s as [|c s IH]; simpl; intros H; [reflexivity|].
  rewrite (H c) by auto. apply IH. auto.
Qed.

Lemma onSend_sendable (st : PageState) (r : FetchResult) :
  sendable (st_input st) = true ->
  onSend st r
  = {| st_input := "";
       st_loading := false;
       st_error := shown_error r;
       st_turns := (st_turns st
                    ++ [{| turn_user := st_input st;
                           turn_assistant := Some (stored_answer r) |}])%list |}.
Proof.
  unfold sendable. intros H. unfold onSend, onSend_begin. rewrite H. simpl.
  unfold onSend_settle, shown_error, stored_answer.
  destruct (try_request r); simpl; now rewrite replace_last_app.
Qed.

Lemma onSend_not_sendable (st : PageState) (r : FetchResult) :
  sendable (st_input st) = false -> onSend st r = st.
Proof.
  unfold sendable. intros H. unfold onSend, onSend_begin. now rewrite H.
Qed.

(** X13. An input that is empty or made of white space only is not sent:
    [onSend] leaves the page as it is, with no turn added and no request
    begun. *)
Theorem blank_input_is_not_sent (st : PageState) (r : FetchResult) :
  (forall c, In c (list_ascii_of_string (st_input st)) ->
             JSNumber.is_space c = true) ->
  onSend_begin st = None /\ onSend st r = st.
Proof.
  intros H.
  assert (Ht : JSNumber.trim (st_input st) = "").
  { unfold JSNumber.trim. now rewrite (trim_start_spaces _ H). }
  unfold onSend, onSend_begin. rewrite Ht. auto.
Qed.

Lemma blank_input_is_not_sent_witness :
  onSend (type_input "  " initial_state) (Rejected "offline")
  = type_input "  " initial_state.
Proof.
  refine (proj2 (blank_input_is_not_sent (type_input "  " initial_state)
                   (Rejected "offline") _)).
  simpl. intros c [<-|[<-|[]]]; reflexivity.
Defined.

(** X14. A sent question adds exactly one turn, at the end of the history and
    with its answer, and leaves the turns before it as they were; the input
    box is emptied and the page is no longer loading. The turn holds the
    response when the request succeeds; when it fails, the error message is
    shown and the turn holds an answer that reads Error: and the message. A
    response whose status is outside 200 to 299 fails with HTTP and the
    status, whatever its body. *)
Theorem sent_question_adds_one_turn (st : PageState) (r : FetchResult) :
  sendable (st_input st) = true ->
  let st' := onSend st r in
  st_input st' = "" /\ st_loading st' = false
  /\ st_turns st'
     = (st_turns st ++ [{| turn_user := st_input st;
                           turn_assistant := Some (stored_answer r) |}])%list
  /\ (forall data, try_request r = inr data ->
        stored_answer r = data /\ st_error st' = None)
  /\ (forall message, try_request r = inl message ->
        resp_answer (stored_answer r) = "Error: " ++ message
        /\ resp_viz (stored_answer r) = None
        /\ st_error st' = Some message)
  /\ (forall status body body',
        status_ok status = false ->
        onSend st (Responded status body) = onSend st (Responded status body')
        /\ try_request (Responded status body)
           = inl ("HTTP " ++ JSNumber.to_string (JSNumber.of_Z status))).
Proof.
  intros H st'. subst st'. rewrite onSend_sendable by assumption. simpl.
  split; [reflexivity|]. split; [reflexivity|]. split; [reflexivity|].
  split; [|split].
  - intros data Hr. unfold stored_answer, shown_error. now rewrite Hr.
  - intros message Hr. unfold stored_answer, shown_error. now rewrite Hr.
  - intros status body body' Hs. split.
    + rewrite !onSend_sendable by assumption.
      unfold shown_error, stored_answer, try_request. now rewrite Hs.
    + unfold try_request. now rewrite Hs.
Qed.

Lemma sent_question_adds_one_turn_witness :
  st_turns (onSend (type_input "top skus" initial_state)
              (Responded 500 (inl "")))
  = [{| turn_user := "top skus";
        turn_assistant := Some (error_response "HTTP 500") |}].
Proof.
  rewrite (proj1 (proj2 (proj2 (sent_question_adds_one_turn
                                  (type_input "top skus" initial_state)
                                  (Responded 500 (inl "")) eq_refl)))).
  reflexivity.
Defined.

(** X15. Over a whole session, from a page that is not loading and whose
    turns all have their answer: the page is again not loading, every turn
    has its answer, the turns that were there are still the first ones, and
    the questions in the history are the old ones followed by the texts that
    were sent, in order, the blank ones left out. *)
Theorem session_keeps_history (sends : list (string * FetchResult))
  (st : PageState) :
  st_loading st = false ->
  Forall answered (st_turns st) ->
  let st' := session sends st in
  st_loading st' = false
  /\ Forall answered (st_turns st')
  /\ firstn (List.length (st_turns st)) (st_turns st') = st_turns st
  /\ map turn_user (st_turns st')
     = (map turn_user (st_turns st) ++ filter sendable (map fst sends))%list.
Proof.
  revert st. induction sends as [|[text r] sends IH]; intros st Hl Ha; simpl.
  - repeat split; auto.
    + apply firstn_all.
    + now rewrite app_nil_r.
  - set (st1 := onSend (type_input text st) r).
    assert (H1 : st_loading st1 = false
                 /\ Forall answered (st_turns st1)
                 /\ exists extra,
                      st_turns st1 = (st_turns st ++ extra)%list
                      /\ map turn_user extra
                         = if sendable text then [text] else []).
    { subst st1. destruct (sendable text) eqn:Hs.
      - rewrite onSend_sendable by exact Hs. simpl. repeat split.
        + apply Forall_app. split; [assumption|].
          constructor; [discriminate|constructor].
        + eexists. split; reflexivity.
      - rewrite onSend_not_sendable by exact Hs. simpl. repeat split; auto.
        exists []. now rewrite app_nil_r. }
    destruct H1 as (Hl1 & Ha1 & extra & Ht1 & Hu1).
    destruct (IH st1 Hl1 Ha1) as (Hl' & Ha' & Hpre & Husers).
    fold (session sends st1). repeat split; auto.
    + assert (Hle : (List.length (st_turns st) <= List.length (st_turns st1))%nat)
        by (rewrite Ht1, length_app; lia).
      rewrite <- (Nat.min_l _ _ Hle), <- firstn_firstn, Hpre, Ht1.
      rewrite firstn_app, Nat.sub_diag, firstn_all. simpl.
      apply app_nil_r.
    + rewrite Husers, Ht1, map_app, Hu1, <- app_assoc. f_equal.
      now destruct (sendable text).
Qed.

Lemma session_keeps_history_witness :
  map turn_user
      (st_turns (session [("top skus", Rejected "offline");
                          ("   ", Rejected "offline");
                          ("sales by month", Responded 404 (inl ""))]
                         initial_state))
  = ["top skus"; "sales by month"].
Proof.
  rewrite (proj2 (proj2 (proj2 (session_keeps_history _ initial_state eq_refl
                                  (Forall_nil _))))).
  reflexivity.
Defined.

(* ================================================================== *)
(** * [ChatMessage] *)
(* ================================================================== *)

(** X16. What the history shows for a question. While the request runs, the
    new turn reads Processing... and has no results panel. After a failed
    request it reads Error: and the message, still without a panel: no
    chart, table or SQL is shown for a failure, whatever the toggles. *)
Theorem failed_send_is_shown_as_text (E : Engine) (st : PageState)
  (r : FetchResult) (showDetails showFullscreen : bool) :
  sendable (st_input st) = true ->
  (exists st1 t,
     onSend_begin st = Some (st_input st, st1)
     /\ st_turns st1 = (st_turns st ++ [t])%list
     /\ ChatMessage E t showDetails showFullscreen
        = {| view_question := st_input st;
             view_answer := "Processing...";
             view_panel := None |})
  /\ (forall message,
        try_request r = inl message ->
        exists t,
          st_turns (onSend st r) = (st_turns st ++ [t])%list
          /\ ChatMessage E t showDetails showFullscreen
             = {| view_question := st_input st;
                  view_answer := "Error: " ++ message;
                  view_panel := None |}).
Proof.
  intros Hs. split.
  - unfold onSend_begin. unfold sendable in Hs. rewrite Hs. simpl.
    eexists. eexists. split; [reflexivity|]. split; reflexivity.
  - intros message Hr. rewrite onSend_sendable by assumption. simpl.
    eexists. split; [reflexivity|].
    unfold stored_answer. rewrite Hr. reflexivity.
Qed.

Lemma failed_send_is_shown_as_text_witness :
  exists t,
    st_turns (onSend (type_input "top skus" initial_state) (Rejected "offline"))
    = [t]
    /\ ChatMessage reference_engine t true true
       = {| view_question := "top skus";
            view_answer := "Error: offline";
            view_panel := None |}.
Proof.
  exact (proj2 (failed_send_is_shown_as_text reference_engine
                  (type_input "top skus" initial_state) (Rejected "offline")
                  true true eq_refl)
           "offline" eq_refl).
Defined.

(** X17. The results panel of an answer. There is none exactly when the
    answer has no chart description and no SQL text, an empty text counting
    as none. With a chart description the panel offers the full screen and
    holds the chart of the rows, taken as no rows when the answer brings
    none; then the table reads that no rows were returned, a line or bar
    chart reads that no valid data point was found, with no key to list, and
    the full-screen view is empty. *)
Theorem panel_of_an_answer (E : Engine) (q : string) (a : ChatResponse)
  (showDetails showFullscreen : bool) :
  let view := ChatMessage E {| turn_user := q; turn_assistant := Some a |}
                          showDetails showFullscreen in
  (view_panel view = None
   <-> resp_viz a = None /\ (resp_sql a = None \/ resp_sql a = Some ""))
  /\ (forall v, resp_viz a = Some v ->
        exists p,
          view_panel view = Some p
          /\ panel_fullscreen_button p = true
          /\ panel_body p
             = BodyChart
                 (ChartOrTable E v (match resp_rows a with
                                    | Some rows => rows
                                    | None => []
                                    end))
                 (if showFullscreen
                  then FullscreenChart E v (match resp_rows a with
                                            | Some rows => rows
                                            | None => []
                                            end)
                  else None))
  /\ (forall v, resp_viz a = Some v ->
        resp_rows a = None \/ resp_rows a = Some [] ->
        exists p,
          view_panel view = Some p
          /\ panel_body p
             = BodyChart
                 match viz_type v with
                 | table => NoRows
                 | _ => NoValidData
                          "No valid data points found. Available keys: none"
                 end
                 None).
Proof.
  intros view. subst view. destruct a as [ans sql viz rows schema]. simpl.
  split; [|split].
  - destruct viz as [v|]; simpl.
    + split; [discriminate|]. intros [H _]. discriminate.
    + destruct sql as [s|]; simpl.
      * unfold truthy. destruct (String.eqb_spec s "") as [->|Hs]; simpl.
        -- split; auto.
        -- split; [discriminate|]. intros [_ [H|H]]; congruence.
      * split; auto.
  - intros v ->. eexists. split; [reflexivity|]. split; [reflexivity|].
    simpl. now destruct rows.
  - intros v -> Hrows. eexists. split; [reflexivity|]. simpl.
    assert (Hr : match rows with Some rows0 => rows0 | None => [] end = [])
      by (destruct Hrows as [-> | ->]; reflexivity).
    rewrite Hr.
    assert (Hfull : FullscreenChart E v [] = None) by reflexivity.
    rewrite Hfull.
    assert (Hinline : ChartOrTable E v []
                      = match viz_type v with
                        | table => NoRows
                        | _ => NoValidData
                                 "No valid data points found. Available keys: none"
                        end).
    { unfold ChartOrTable. now destruct (viz_type v). }
    rewrite Hinline. now destruct showFullscreen.
Qed.

Lemma panel_of_an_answer_witness :
  exists p,
    view_panel (ChatMessage reference_engine
                  {| turn_user := "by month";
                     turn_assistant :=
                       Some {| resp_answer := "Here it is";
                               resp_sql := None;
                               resp_viz := Some Examples.monthly_viz;
                               resp_rows := None;
                               resp_schema := None |} |}
                  false true)
    = Some p
    /\ panel_body p
       = BodyChart
           (NoValidData "No valid data points found. Available keys: none")
           None.
Proof.
  exact (proj2 (proj2 (panel_of_an_answer reference_engine "by month"
                         {| resp_answer := "Here it is";
                            resp_sql := None;
                            resp_viz := Some Examples.monthly_viz;
                            resp_rows := None;
                            resp_schema := None |} false true))
           Examples.monthly_viz eq_refl (or_introl eq_refl)).
Defined.
